(** * HMS front end: API client, token helpers and page handlers

    A shallow embedding of the hospital-management front end:
    - the [api] module (the axios client, its request interceptor, the
      resource functions and [tokenUtils]),
    - the login page, [pages/Login.tsx] ([onButtonClick]),
    - the [BookAppointment] page ([loadData], [handleSubmit]),
    - the [Patients] page ([calculateAge], [fetchPatients]).

    JavaScript values that the code inspects dynamically (the [error: any]
    of a [catch] clause) are modelled by [jsval]; values whose shape the
    TypeScript declarations fix ([AuthResponse], [PatientsResponse], the
    appointment payload) are records.  [localStorage] is a finite map from
    strings to strings.  Handlers run in a state-and-exception monad over
    the page state and the browser world (storage, network log, router,
    alerts, console); the backend is a parameter that answers each
    transmitted request with a resolution or a rejection. *)

From Stdlib Require Import ZArith String Ascii List Bool Lia.
From Stdlib Require Import DecimalString DecimalPos DecimalZ.
From stdpp Require Import base option gmap strings list fin_maps.
Import ListNotations.

Local Open Scope string_scope.
Local Open Scope Z_scope.

(* ===================================================================== *)
(** ** JavaScript values, truthiness and the operators the pages use *)
(* ===================================================================== *)

Module JS.

(** Numbers are integers here: none of the modelled code computes with
    fractions, and a [NaN] only arises from an invalid [Date], which
    [JSDate] models separately. *)
#[local] Unset Elimination Schemes.
Inductive jsval : Type :=
| JUndefined
| JNull
| JBool (b : bool)
| JNum (n : Z)
| JStr (s : string)
| JArr (elems : list jsval)
| JObj (fields : gmap string jsval).
#[local] Set Elimination Schemes.

(** ToBoolean. *)
Definition truthy (v : jsval) : bool :=
  match v with
  | JUndefined | JNull => false
  | JBool b => b
  | JNum n => negb (n =? 0)
  | JStr s => negb (String.eqb s "")
  | JArr _ | JObj _ => true
  end.

(** ToBoolean on a [string | null] and on a [number | null]. *)
Definition truthy_text (v : option string) : bool :=
  match v with Some s => negb (String.eqb s "") | None => false end.
Definition truthy_number (v : option Z) : bool :=
  match v with Some n => negb (n =? 0) | None => false end.

(** A [string | null] inside a template literal: [null] prints as "null". *)
Definition template_text (v : option string) : string := default "null" v.

(** [a || b]: the left operand when it is truthy, else the right one. *)
Definition or_else (a b : jsval) : jsval := if truthy a then a else b.

Definition nullish (v : jsval) : bool :=
  match v with JUndefined | JNull => true | _ => false end.

(** Reading the own property [k] of a non-nullish value.  Primitives and
    arrays have no own property under the names the pages read
    ([response], [data], [detail], [message], [error]). *)
Definition get_prop (v : jsval) (k : string) : jsval :=
  match v with
  | JObj m => default JUndefined (m !! k)
  | _ => JUndefined
  end.

(** [v?.k] *)
Definition opt_chain (v : jsval) (k : string) : jsval :=
  if nullish v then JUndefined else get_prop v k.

(** The value of a thrown [TypeError] / [RangeError]. *)
Definition error_object (name message : string) : jsval :=
  JObj {[ "name" := JStr name; "message" := JStr message ]}.

(** How an evaluation ends: with a value, or with a thrown value. *)
Inductive completion (A : Type) : Type :=
| Normal (a : A)
| Throw (e : jsval).
Arguments Normal {A} a.
Arguments Throw {A} e.

(** [v.k]: throws a [TypeError] on [undefined] and [null] (the text of
    its message differs between engines and plays no part below). *)
Definition member (v : jsval) (k : string) : completion jsval :=
  if nullish v
  then Throw (error_object "TypeError" "Cannot read properties of undefined")
  else Normal (get_prop v k).

(** Numbers that may be [NaN] ([None]): subtraction propagates [NaN], and
    every comparison with [NaN] is false. *)
Definition num_sub (a b : option Z) : option Z :=
  x ← a; y ← b; Some (x - y).
Definition num_lt (a b : option Z) : bool :=
  match a, b with Some x, Some y => x <? y | _, _ => false end.
Definition num_eq (a b : option Z) : bool :=
  match a, b with Some x, Some y => x =? y | _, _ => false end.

(** Text.  A [string] stands for the JavaScript string whose UTF-16 code
    units are the codes of its characters, one character for one code
    unit, so that [length] and [substring] count code units as JavaScript
    does; the code units that a [string] can hold are those below 256.

    [trim] strips the ECMAScript WhiteSpace and LineTerminator classes.
    Seven of their members are below 256: TAB, LF, VT, FF, CR, SPACE and
    the no-break space U+00A0.  The others (U+1680, U+2000 to U+200A,
    U+2028, U+2029, U+202F, U+205F, U+3000 and U+FEFF) are code units
    from 256 on, which no [string] holds. *)
Definition is_space (c : ascii) : bool :=
  let n := nat_of_ascii c in
  ((9 <=? n)%nat && (n <=? 13)%nat) || (n =? 32)%nat || (n =? 160)%nat.

Fixpoint trimStart (s : string) : string :=
  match s with
  | EmptyString => EmptyString
  | String c s' => if is_space c then trimStart s' else s
  end.

Fixpoint rev_string (s acc : string) : string :=
  match s with
  | EmptyString => acc
  | String c s' => rev_string s' (String c acc)
  end.

Definition trimEnd (s : string) : string :=
  rev_string (trimStart (rev_string s "")) "".

(** [String.prototype.trim] *)
Definition trim (s : string) : string := trimEnd (trimStart s).

(** [s.split(sep)[0]] for a one-character separator: the text before the
    first occurrence of [sep], or all of [s] when there is none. *)
Fixpoint split_head (sep : ascii) (s : string) : string :=
  match s with
  | EmptyString => EmptyString
  | String c s' =>
      if Ascii.eqb c sep then EmptyString else String c (split_head sep s')
  end.

End JS.

(* ===================================================================== *)
(** ** The [Date] object: time values, calendar fields, ISO text *)
(* ===================================================================== *)

Module JSDate.

(** A time value is a number of milliseconds since 1970-01-01T00:00:00Z;
    the calendar functions below are those of ECMA-262, section
    "Time Values and Time Range" and following.  [Z.div] rounds towards
    minus infinity and [Z.modulo] is non-negative for a positive divisor,
    like the specification's floor and modulo. *)
Definition msPerSecond : Z := 1000.
Definition msPerMinute : Z := 60000.
Definition msPerHour : Z := 3600000.
Definition msPerDay : Z := 86400000.

Definition Day (t : Z) : Z := t / msPerDay.
Definition TimeWithinDay (t : Z) : Z := t mod msPerDay.

Definition DaysInYear (y : Z) : Z :=
  if negb (y mod 4 =? 0) then 365
  else if negb (y mod 100 =? 0) then 366
  else if negb (y mod 400 =? 0) then 365
  else 366.

Definition DayFromYear (y : Z) : Z :=
  365 * (y - 1970) + (y - 1969) / 4 - (y - 1901) / 100 + (y - 1601) / 400.

Definition TimeFromYear (y : Z) : Z := msPerDay * DayFromYear y.

(** The year containing day number [d]: ECMA-262 defines it as the largest
    [y] with [DayFromYear y <= d]; it is computed from the mean length of
    a Gregorian year and corrected by at most one (lemma
    [YearFromDay_spec] shows that this is the year of the definition). *)
Definition YearFromDay (d : Z) : Z :=
  let y := 1970 + (400 * d) / 146097 in
  if d <? DayFromYear y then y - 1
  else if DayFromYear (y + 1) <=? d then y + 1
  else y.

Definition YearFromTime (t : Z) : Z := YearFromDay (Day t).

Definition InLeapYear (t : Z) : Z :=
  if DaysInYear (YearFromTime t) =? 366 then 1 else 0.

Definition DayWithinYear (t : Z) : Z := Day t - DayFromYear (YearFromTime t).

(** Months are numbered from 0 (January) to 11 (December). *)
Definition MonthFromTime (t : Z) : Z :=
  let d := DayWithinYear t in
  let l := InLeapYear t in
  if d <? 31 then 0
  else if d <? 59 + l then 1
  else if d <? 90 + l then 2
  else if d <? 120 + l then 3
  else if d <? 151 + l then 4
  else if d <? 181 + l then 5
  else if d <? 212 + l then 6
  else if d <? 243 + l then 7
  else if d <? 273 + l then 8
  else if d <? 304 + l then 9
  else if d <? 334 + l then 10
  else 11.

Definition DateFromTime (t : Z) : Z :=
  let d := DayWithinYear t in
  let l := InLeapYear t in
  match MonthFromTime t with
  | 0 => d + 1
  | 1 => d - 30
  | 2 => d - 58 - l
  | 3 => d - 89 - l
  | 4 => d - 119 - l
  | 5 => d - 150 - l
  | 6 => d - 180 - l
  | 7 => d - 211 - l
  | 8 => d - 242 - l
  | 9 => d - 272 - l
  | 10 => d - 303 - l
  | _ => d - 333 - l
  end.

Definition HourFromTime (t : Z) : Z := (t / msPerHour) mod 24.
Definition MinFromTime (t : Z) : Z := (t / msPerMinute) mod 60.
Definition SecFromTime (t : Z) : Z := (t / msPerSecond) mod 60.
Definition msFromTime (t : Z) : Z := t mod msPerSecond.

(** Number of days from the start of a year to the start of month [m]
    (0-based), for a common ([l = 0]) or leap ([l = 1]) year. *)
Definition days_before_month (m l : Z) : Z :=
  match m with
  | 0 => 0
  | 1 => 31
  | 2 => 59 + l
  | 3 => 90 + l
  | 4 => 120 + l
  | 5 => 151 + l
  | 6 => 181 + l
  | 7 => 212 + l
  | 8 => 243 + l
  | 9 => 273 + l
  | 10 => 304 + l
  | _ => 334 + l
  end.

(** [MakeDay(year, month, date)] for a month already in 0..11. *)
Definition MakeDay (year month date : Z) : Z :=
  let l := if DaysInYear year =? 366 then 1 else 0 in
  DayFromYear year + days_before_month month l + date - 1.

Definition MakeDate (day time : Z) : Z := day * msPerDay + time.

(** [TimeClip]: time values beyond 8.64e15 ms are not representable. *)
Definition TimeClip (t : Z) : option Z :=
  if Z.abs t <=? 8640000000000000 then Some t else None.

(** A [Date] object holds a time value or [NaN] ([None], "Invalid Date"). *)
Record Date : Type := mkDate { time_value : option Z }.

(** The environment of the local-time getters: the offset of local time
    from UTC, in milliseconds, at a given UTC instant ([LocalTZA]). *)
Definition LocalTime (tza : Z -> Z) (t : Z) : Z := t + tza t.

(** [getFullYear], [getMonth] and [getDate] read the fields of the LOCAL
    time; each is [NaN] on an invalid date. *)
Definition getFullYear (tza : Z -> Z) (d : Date) : option Z :=
  t ← time_value d; Some (YearFromTime (LocalTime tza t)).
Definition getMonth (tza : Z -> Z) (d : Date) : option Z :=
  t ← time_value d; Some (MonthFromTime (LocalTime tza t)).
Definition getDate (tza : Z -> Z) (d : Date) : option Z :=
  t ← time_value d; Some (DateFromTime (LocalTime tza t)).

(** *** Text of a date *)

Definition digit (n : Z) : ascii := ascii_of_nat (48 + Z.to_nat (n mod 10)).

Definition pad2 (n : Z) : string :=
  String (digit (n / 10)) (String (digit n) "").
Definition pad3 (n : Z) : string := String (digit (n / 100)) (pad2 n).
Definition pad4 (n : Z) : string := String (digit (n / 1000)) (pad3 n).
Definition pad6 (n : Z) : string :=
  String (digit (n / 100000)) (String (digit (n / 10000)) (pad4 n)).

(** Years 0 to 9999 are written with four digits, all others with a sign
    and six digits (the expanded-year form). *)
Definition year_text (y : Z) : string :=
  if (0 <=? y) && (y <=? 9999) then pad4 y
  else String (if y <? 0 then "-"%char else "+"%char) (pad6 (Z.abs y)).

Definition date_text (t : Z) : string :=
  year_text (YearFromTime t) +:+ "-" +:+ pad2 (MonthFromTime t + 1)
    +:+ "-" +:+ pad2 (DateFromTime t).

Definition clock_text (t : Z) : string :=
  pad2 (HourFromTime t) +:+ ":" +:+ pad2 (MinFromTime t) +:+ ":"
    +:+ pad2 (SecFromTime t) +:+ "." +:+ pad3 (msFromTime t).

(** [Date.prototype.toISOString]: the UTC fields of the time value, as
    [YYYY-MM-DDTHH:mm:ss.sssZ]; a [RangeError] on an invalid date. *)
Definition toISOString (d : Date) : JS.completion string :=
  match time_value d with
  | None => JS.Throw (JS.error_object "RangeError" "Invalid time value")
  | Some t => JS.Normal (date_text t +:+ "T" +:+ clock_text t +:+ "Z")
  end.

Definition digit_value (c : ascii) : option Z :=
  let n := Z.of_nat (nat_of_ascii c) in
  if (48 <=? n) && (n <=? 57) then Some (n - 48) else None.

(** [Date.parse] on the date-only form [YYYY-MM-DD], which ECMA-262 reads
    as midnight UTC of that day; it is the form in which the backend
    serialises [date_of_birth].  The month must be 01..12 and the day
    01..31.  Other inputs (date-time forms, implementation-defined
    formats) are outside this model and are mapped to [None]. *)
Definition parse (s : string) : option Z :=
  match s with
  | String y1 (String y2 (String y3 (String y4 (String s1
      (String m1 (String m2 (String s2 (String d1 (String d2
        EmptyString))))))))) =>
      a ← digit_value y1; b ← digit_value y2;
      c ← digit_value y3; d ← digit_value y4;
      e ← digit_value m1; f ← digit_value m2;
      g ← digit_value d1; h ← digit_value d2;
      let year := 1000 * a + 100 * b + 10 * c + d in
      let month := 10 * e + f in
      let date := 10 * g + h in
      if Ascii.eqb s1 "-" && Ascii.eqb s2 "-"
         && (1 <=? month) && (month <=? 12) && (1 <=? date) && (date <=? 31)
      then Some (MakeDate (MakeDay year (month - 1) date) 0)
      else None
  | _ => None
  end.

(** [new Date(text)] *)
Definition of_string (s : string) : Date :=
  mkDate (t ← parse s; TimeClip t).

(** [new Date()] when the system clock reads [now]. *)
Definition of_clock (now : Z) : Date := mkDate (TimeClip now).

End JSDate.

(* ===================================================================== *)
(** ** Computations with state and exceptions *)
(* ===================================================================== *)

Module Eff.
Import JS.

(** A computation over a state [S] ends normally or by a throw, and
    leaves a state either way.  An [await] on a promise is the same bind:
    a rejected promise is a throw at the [await]. *)
Definition M (S A : Type) : Type := S -> completion A * S.

Definition ret {S A} (a : A) : M S A := fun s => (Normal a, s).

Definition bind {S A B} (m : M S A) (k : A -> M S B) : M S B :=
  fun s =>
    match m s with
    | (Normal a, s') => k a s'
    | (Throw e, s') => (Throw e, s')
    end.

#[global] Instance M_ret {S} : MRet (M S) := fun A => @ret S A.
#[global] Instance M_bind {S} : MBind (M S) := fun A B k m => @bind S A B m k.

Definition throw {S A} (e : jsval) : M S A := fun s => (Throw e, s).

Definition of_completion {S A} (c : completion A) : M S A := fun s => (c, s).

Definition gets {S A} (f : S -> A) : M S A := fun s => (Normal (f s), s).

Definition modify {S} (f : S -> S) : M S unit := fun s => (Normal tt, f s).

(** Settle a promise without throwing: used for [Promise.all]. *)
Definition attempt {S A} (m : M S A) : M S (completion A) :=
  fun s => let '(r, s') := m s in (Normal r, s').

(** [try { body } catch (e) { handler e } finally { finalizer }]: the
    finalizer runs after the body, or after the handler when the body
    threw, also when the handler itself throws; a throw of the handler
    propagates after the finalizer. *)
Definition try_catch_finally {S A}
    (body : M S A) (handler : jsval -> M S A) (finalizer : M S unit) : M S A :=
  fun s =>
    let '(r, s1) :=
      match body s with
      | (Normal a, s') => (Normal a, s')
      | (Throw e, s') => handler e s'
      end in
    match finalizer s1 with
    | (Normal _, s2) => (r, s2)
    | (Throw e, s2) => (Throw e, s2)
    end.

(** Running a computation on one component of a pair of states. *)
Definition on_snd {P W A} (m : M W A) : M (P * W) A :=
  fun s => let '(r, w') := m (snd s) in (r, (fst s, w')).

Definition on_fst {P W} (f : P -> P) : M (P * W) unit :=
  modify (fun s => (f (fst s), snd s)).

(** The expression [error.response?.data?.<field>] of the [catch]
    clauses: the first access is a plain one and throws when [error] is
    [undefined] or [null]. *)
Definition response_data_field {S} (error : jsval) (field : string)
    : M S jsval :=
  response ← of_completion (member error "response");
  mret (opt_chain (opt_chain response "data") field).

End Eff.

(* ===================================================================== *)
(** ** The [api] module: configuration, data types, client, resources *)
(* ===================================================================== *)

Module Api.
Import JS Eff.

(** [import.meta.env.VITE_API_URL || 'http://localhost:8000'] *)
Definition API_BASE_URL (VITE_API_URL : option string) : string :=
  match VITE_API_URL with
  | Some u => if String.eqb u "" then "http://localhost:8000" else u
  | None => "http://localhost:8000"
  end.

(** [apiConfig.endpoints], the paths used by the modelled functions. *)
Module endpoints.
Definition auth_token : string := "/api/token/".
Definition patients_list : string := "/patients/".
Definition patients_appointments : string := "/patients/appointments".
Definition staff_doctors : string := "/staff/doctors".
End endpoints.

Inductive Gender : Type := Male | Female.

Record EmergencyContact : Type := mkEmergencyContact {
  contact_id : Z;
  contact_patient : Z;
  contact_first_name : string;
  contact_last_name : string;
  contact_phone_number : string;
  relationship : string;
}.

(** Optional properties ([first_name?: string]) are options. *)
Record Patient : Type := mkPatient {
  patient_id : Z;
  first_name : option string;
  last_name : option string;
  date_of_birth : string;
  gender : Gender;
  phone_number : option string;
  email : option string;
  address : string;
  marital_status : option string;
  occupation : option string;
  emergency_contact : option EmergencyContact;
}.

Record Doctor : Type := mkDoctor {
  doctor_id : Z;
  doctor_first_name : string;
  doctor_last_name : string;
  doctor_date_of_birth : string;
  specialty : string;
  doctor_gender : Gender;
  doctor_phone_number : option string;
  doctor_email : option string;
  doctor_address : string;
}.

(** [Omit<Appointment, 'appointment_id'>] as it is serialised: [patient]
    and [doctor] hold what [selectedPatient!] and [selectedDoctor!] are at
    run time (the [!] is erased, so a number or [null]); [reason] is a
    string or [undefined]. *)
Record AppointmentData : Type := mkAppointmentData {
  patient : option Z;
  doctor : option Z;
  date : string;
  time : string;
  reason : option string;
  status : bool;
}.

(** [Appointment]: the same properties and the server-assigned id. *)
Record Appointment : Type := mkAppointment {
  appointment_id : Z;
  appointment : AppointmentData;
}.

Record PatientsResponse : Type := mkPatientsResponse {
  patients : list Patient;
  patient_count : Z;
}.

Record DoctorsResponse : Type := mkDoctorsResponse {
  doctors : list Doctor;
  doctor_count : Z;
}.

Record AuthResponse : Type := mkAuthResponse {
  access : string;
  refresh : string;
}.

(** *** Requests *)

Inductive Method : Type := GET | POST | PUT | DELETE.

Inductive Body : Type :=
| NoBody
| Credentials (username password : string)
| AppointmentBody (a : AppointmentData).

Record Request : Type := mkRequest {
  baseURL : string;
  withCredentials : bool;
  method : Method;
  url : string;
  headers : gmap string string;
  data : Body;
}.

Definition set_headers (h : gmap string string) (c : Request) : Request :=
  mkRequest (baseURL c) (withCredentials c) (method c) (url c) h (data c).

(** What the module's surroundings provide: the build-time variable, and
    the backend's answer to a transmitted request on each of the paths.
    An answer is the response body of a 2xx response, typed as the call
    declares it ([response.data as T], not checked at run time), or the
    value with which axios rejects the promise. *)
Record Env : Type := mkEnv {
  VITE_API_URL : option string;
  token_service : Request -> completion AuthResponse;
  patients_service : Request -> completion PatientsResponse;
  doctors_service : Request -> completion DoctorsResponse;
  appointments_service : Request -> completion Appointment;
}.

(** The value of an axios rejection for a response outside 2xx: an error
    object whose [response] holds the status and the parsed body. *)
Definition AxiosError (status_code : Z) (body : jsval) : jsval :=
  JObj {[ "name" := JStr "AxiosError";
          "message" := JStr "Request failed";
          "response" := JObj {[ "status" := JNum status_code;
                                "data" := body ]} ]}.

(** A rejection with no response at all (the request never got through). *)
Definition NetworkError : jsval :=
  JObj {[ "name" := JStr "AxiosError"; "message" := JStr "Network Error" ]}.

(** *** The browser around the pages *)

Record World : Type := mkWorld {
  localStorage : gmap string string;
  network : list Request;
  navigations : list string;
  alerts : list string;
  console : list (string * jsval);
}.

Definition set_localStorage (f : gmap string string -> gmap string string)
    (w : World) : World :=
  mkWorld (f (localStorage w)) (network w) (navigations w) (alerts w)
    (console w).

Definition log_request (r : Request) (w : World) : World :=
  mkWorld (localStorage w) (network w ++ [r]) (navigations w) (alerts w)
    (console w).

Definition log_navigation (to : string) (w : World) : World :=
  mkWorld (localStorage w) (network w) (navigations w ++ [to]) (alerts w)
    (console w).

Definition log_alert (text : string) (w : World) : World :=
  mkWorld (localStorage w) (network w) (navigations w) (alerts w ++ [text])
    (console w).

Definition log_console (label : string) (v : jsval) (w : World) : World :=
  mkWorld (localStorage w) (network w) (navigations w) (alerts w)
    (console w ++ [(label, v)]).

(** [localStorage.getItem] returns [null] ([None]) for a missing key. *)
Definition getItem (k : string) : M World (option string) :=
  gets (fun w => localStorage w !! k).
Definition setItem (k v : string) : M World unit :=
  modify (set_localStorage (insert k v)).
Definition removeItem (k : string) : M World unit :=
  modify (set_localStorage (delete k)).

Definition navigate (to : string) : M World unit := modify (log_navigation to).
Definition alert (text : string) : M World unit := modify (log_alert text).
Definition console_error (label : string) (v : jsval) : M World unit :=
  modify (log_console label v).

(** *** The axios instance *)

(** [axios.create({ baseURL, withCredentials: true, headers: {...} })]
    merged with the method, path and body of one call. *)
Definition make_request (env : Env) (m : Method) (path : string) (d : Body)
    : Request :=
  mkRequest (API_BASE_URL (VITE_API_URL env)) true m path
    {[ "Content-Type" := "application/json" ]} d.

(** The request interceptor, applied to the storage as it is when the
    request is sent. *)
Definition request_interceptor (config : Request) : M World Request :=
  token ← getItem "authToken";
  if truthy_text token
  then mret (set_headers
               (<["Authorization" := "Bearer " +:+ template_text token]>
                  (headers config)) config)
  else mret config.

(** A call through the instance: the interceptor shapes the request, the
    instance hands it to its adapter (the request is logged as handed
    over), and the promise settles with the backend's answer.  What the
    adapter puts on the wire is [wire] of the request handed over, so a
    backend, whose answer depends on what it receives, is a function of
    that request. *)
Definition apiClient {T} (service : Request -> completion T)
    (config : Request) : M World T :=
  sent ← request_interceptor config;
  modify (log_request sent);;
  of_completion (service sent).

(** The browser adapter of axios sends the request it is handed with its
    headers as they are, except that a request without a body goes out
    without a Content-Type: the instance default is dropped there. *)
Definition wire (config : Request) : Request :=
  match data config with
  | NoBody => set_headers (delete "Content-Type" (headers config)) config
  | Credentials _ _ | AppointmentBody _ => config
  end.

Module authAPI.
Definition login (env : Env) (username password : string)
    : M World AuthResponse :=
  apiClient (token_service env)
    (make_request env POST endpoints.auth_token
       (Credentials username password)).
End authAPI.

Module patientsAPI.
Definition getAll (env : Env) : M World PatientsResponse :=
  apiClient (patients_service env)
    (make_request env GET endpoints.patients_list NoBody).

Module appointments.
Definition create (env : Env) (appointmentData : AppointmentData)
    : M World Appointment :=
  apiClient (appointments_service env)
    (make_request env POST endpoints.patients_appointments
       (AppointmentBody appointmentData)).
End appointments.
End patientsAPI.

Module doctorsAPI.
Definition getAll (env : Env) : M World DoctorsResponse :=
  apiClient (doctors_service env)
    (make_request env GET endpoints.staff_doctors NoBody).
End doctorsAPI.

Module tokenUtils.
Definition setTokens (access refresh : string) : M World unit :=
  setItem "authToken" access;;
  setItem "refreshToken" refresh.

Definition getAccessToken : M World (option string) := getItem "authToken".

Definition getRefreshToken : M World (option string) :=
  getItem "refreshToken".

Definition removeTokens : M World unit :=
  removeItem "authToken";;
  removeItem "refreshToken".

(** [!!token] *)
Definition isAuthenticated : M World bool :=
  token ← getItem "authToken";
  mret (truthy_text token).
End tokenUtils.

End Api.

(* ===================================================================== *)
(** ** The login page, [pages/Login.tsx] *)
(* ===================================================================== *)

Module Login.
Import JS Eff Api.

(** The component's [useState] cells.  [loginError] receives whatever the
    [catch] clause computes from the thrown value, so it is a [jsval]. *)
Record State : Type := mkState {
  email : string;
  password : string;
  emailError : string;
  passwordError : string;
  loginError : jsval;
  isLoading : bool;
}.

Definition setEmailError (v : string) : M (State * World) unit :=
  on_fst (fun s => mkState (email s) (password s) v (passwordError s)
                     (loginError s) (isLoading s)).
Definition setPasswordError (v : string) : M (State * World) unit :=
  on_fst (fun s => mkState (email s) (password s) (emailError s) v
                     (loginError s) (isLoading s)).
Definition setLoginError (v : jsval) : M (State * World) unit :=
  on_fst (fun s => mkState (email s) (password s) (emailError s)
                     (passwordError s) v (isLoading s)).
Definition setIsLoading (v : bool) : M (State * World) unit :=
  on_fst (fun s => mkState (email s) (password s) (emailError s)
                     (passwordError s) (loginError s) v).

Definition onButtonClick (env : Env) : M (State * World) unit :=
  email ← gets (fun s => email (fst s));
  password ← gets (fun s => password (fst s));
  let isValid := true in
  setLoginError (JStr "");;
  isValid ← (if String.eqb (trim email) ""
             then setEmailError "Email is required";; mret false
             else setEmailError "";; mret isValid);
  isValid ← (if String.eqb (trim password) ""
             then setPasswordError "Password is required";; mret false
             else setPasswordError "";; mret isValid);
  if isValid : bool then
    setIsLoading true;;
    try_catch_finally
      (response ← on_snd (authAPI.login env email password);
       on_snd (tokenUtils.setTokens (access response) (refresh response));;
       on_snd (navigate "/dashboard"))
      (fun error =>
         on_snd (console_error "Login failed:" error);;
         detail ← response_data_field error "detail";
         if truthy detail then setLoginError detail
         else
           message ← response_data_field error "message";
           setLoginError
             (or_else message (JStr "Invalid credentials. Please try again.")))
      (setIsLoading false)
  else mret tt.

End Login.

(* ===================================================================== *)
(** ** The [BookAppointment] page *)
(* ===================================================================== *)

Module BookAppointment.
Import JS Eff Api.

Record State : Type := mkState {
  selectedPatient : option Z;
  selectedDoctor : option Z;
  date : option JSDate.Date;
  timeStr : string;
  reason : string;
  patients : list Patient;
  doctors : list Doctor;
  loading : bool;
  submitting : bool;
  error : jsval;
  patientError : string;
  doctorError : string;
  dateError : string;
  timeError : string;
}.

Definition setPatients (v : list Patient) : M (State * World) unit :=
  on_fst (fun s => mkState (selectedPatient s) (selectedDoctor s) (date s)
    (timeStr s) (reason s) v (doctors s) (loading s) (submitting s)
    (error s) (patientError s) (doctorError s) (dateError s) (timeError s)).
Definition setDoctors (v : list Doctor) : M (State * World) unit :=
  on_fst (fun s => mkState (selectedPatient s) (selectedDoctor s) (date s)
    (timeStr s) (reason s) (patients s) v (loading s) (submitting s)
    (error s) (patientError s) (doctorError s) (dateError s) (timeError s)).
Definition setLoading (v : bool) : M (State * World) unit :=
  on_fst (fun s => mkState (selectedPatient s) (selectedDoctor s) (date s)
    (timeStr s) (reason s) (patients s) (doctors s) v (submitting s)
    (error s) (patientError s) (doctorError s) (dateError s) (timeError s)).
Definition setSubmitting (v : bool) : M (State * World) unit :=
  on_fst (fun s => mkState (selectedPatient s) (selectedDoctor s) (date s)
    (timeStr s) (reason s) (patients s) (doctors s) (loading s) v
    (error s) (patientError s) (doctorError s) (dateError s) (timeError s)).
Definition setError (v : jsval) : M (State * World) unit :=
  on_fst (fun s => mkState (selectedPatient s) (selectedDoctor s) (date s)
    (timeStr s) (reason s) (patients s) (doctors s) (loading s)
    (submitting s) v (patientError s) (doctorError s) (dateError s)
    (timeError s)).
Definition setPatientError (v : string) : M (State * World) unit :=
  on_fst (fun s => mkState (selectedPatient s) (selectedDoctor s) (date s)
    (timeStr s) (reason s) (patients s) (doctors s) (loading s)
    (submitting s) (error s) v (doctorError s) (dateError s) (timeError s)).
Definition setDoctorError (v : string) : M (State * World) unit :=
  on_fst (fun s => mkState (selectedPatient s) (selectedDoctor s) (date s)
    (timeStr s) (reason s) (patients s) (doctors s) (loading s)
    (submitting s) (error s) (patientError s) v (dateError s) (timeError s)).
Definition setDateError (v : string) : M (State * World) unit :=
  on_fst (fun s => mkState (selectedPatient s) (selectedDoctor s) (date s)
    (timeStr s) (reason s) (patients s) (doctors s) (loading s)
    (submitting s) (error s) (patientError s) (doctorError s) v
    (timeError s)).
Definition setTimeError (v : string) : M (State * World) unit :=
  on_fst (fun s => mkState (selectedPatient s) (selectedDoctor s) (date s)
    (timeStr s) (reason s) (patients s) (doctors s) (loading s)
    (submitting s) (error s) (patientError s) (doctorError s) (dateError s)
    v).

(** The effect run on mount.  [Promise.all] issues both requests before
    either settles and rejects as soon as one of them does; when both
    reject, the rejection of the patients call is taken here. *)
Definition loadData (env : Env) : M (State * World) unit :=
  setLoading true;;
  try_catch_finally
    (patientsSettled ← on_snd (attempt (patientsAPI.getAll env));
     doctorsSettled ← on_snd (attempt (doctorsAPI.getAll env));
     patientsResponse ← of_completion patientsSettled;
     doctorsResponse ← of_completion doctorsSettled;
     setPatients (Api.patients patientsResponse);;
     setDoctors (Api.doctors doctorsResponse))
    (fun error =>
       on_snd (console_error "Error loading data:" error);;
       setError (JStr "Failed to load patients and doctors"))
    (setLoading false).

(** [date!.toISOString().split('T')[0]]; calling a method on [null] is a
    [TypeError]. *)
Definition formatDate {S} (date : option JSDate.Date) : M S string :=
  match date with
  | None =>
      throw (error_object "TypeError" "Cannot read properties of null")
  | Some d =>
      iso ← of_completion (JSDate.toISOString d);
      mret (split_head "T" iso)
  end.

Definition handleSubmit (env : Env) : M (State * World) unit :=
  selectedPatient ← gets (fun s => selectedPatient (fst s));
  selectedDoctor ← gets (fun s => selectedDoctor (fst s));
  date ← gets (fun s => date (fst s));
  timeStr ← gets (fun s => timeStr (fst s));
  reason ← gets (fun s => reason (fst s));
  let isValid := true in
  isValid ← (if negb (truthy_number selectedPatient)
             then setPatientError "Patient is required";; mret false
             else setPatientError "";; mret isValid);
  isValid ← (if negb (truthy_number selectedDoctor)
             then setDoctorError "Doctor is required";; mret false
             else setDoctorError "";; mret isValid);
  isValid ← (if negb (bool_decide (is_Some date))
             then setDateError "Date is required";; mret false
             else setDateError "";; mret isValid);
  isValid ← (if negb (truthy (JStr (trim timeStr)))
             then setTimeError "Time is required";; mret false
             else setTimeError "";; mret isValid);
  if isValid : bool then
    setSubmitting true;;
    setError (JStr "");;
    try_catch_finally
      (formattedDate ← formatDate date;
       on_snd (patientsAPI.appointments.create env
         {| Api.patient := selectedPatient;
            Api.doctor := selectedDoctor;
            Api.date := formattedDate;
            Api.time := timeStr;
            Api.reason := if truthy (JStr reason) then Some reason else None;
            Api.status := false |});;
       on_snd (alert "Appointment booked successfully!");;
       on_snd (navigate "/appointments"))
      (fun error =>
         on_snd (console_error "Error booking appointment:" error);;
         err ← response_data_field error "error";
         if truthy err then setError err
         else
           message ← response_data_field error "message";
           setError
             (or_else message
                (JStr "Failed to book appointment. Please try again.")))
      (setSubmitting false)
  else mret tt.

End BookAppointment.

(* ===================================================================== *)
(** ** The [Patients] page *)
(* ===================================================================== *)

Module Patients.
Import JS Eff Api.

(** [calculateAge], in a browser whose local-time offset is [tza] and
    whose clock reads [now].  [new Date(dateOfBirth)] parses the text (a
    date-only text is midnight UTC); the three getters then read LOCAL
    calendar fields of both dates. *)
Definition calculateAge (tza : Z -> Z) (now : Z) (dateOfBirth : string)
    : option Z :=
  let birth := JSDate.of_string dateOfBirth in
  let today := JSDate.of_clock now in
  let age :=
    num_sub (JSDate.getFullYear tza today) (JSDate.getFullYear tza birth) in
  let monthDiff :=
    num_sub (JSDate.getMonth tza today) (JSDate.getMonth tza birth) in
  if num_lt monthDiff (Some 0)
     || (num_eq monthDiff (Some 0)
         && num_lt (JSDate.getDate tza today) (JSDate.getDate tza birth))
  then num_sub age (Some 1)
  else age.

Record State : Type := mkState {
  patients : list Patient;
  loading : bool;
  error : string;
}.

Definition setPatients (v : list Patient) : M (State * World) unit :=
  on_fst (fun s => mkState v (loading s) (error s)).
Definition setLoading (v : bool) : M (State * World) unit :=
  on_fst (fun s => mkState (patients s) v (error s)).
Definition setError (v : string) : M (State * World) unit :=
  on_fst (fun s => mkState (patients s) (loading s) v).

Definition fetchPatients (env : Env) : M (State * World) unit :=
  setLoading true;;
  setError "";;
  try_catch_finally
    (response ← on_snd (patientsAPI.getAll env);
     setPatients (Api.patients response))
    (fun error =>
       on_snd (console_error "Error fetching patients:" error);;
       setError "Failed to fetch patients. Please try again.")
    (setLoading false).

End Patients.

(* ===================================================================== *)
(** ** Shapes of text *)
(* ===================================================================== *)

Module Text.

(** The character [c] does not occur in [s]. *)
Fixpoint avoids (c : ascii) (s : string) : bool :=
  match s with
  | EmptyString => true
  | String x s' => negb (Ascii.eqb x c) && avoids c s'
  end.

Definition is_digit (c : ascii) : bool :=
  let n := Z.of_nat (nat_of_ascii c) in (48 <=? n) && (n <=? 57).

(** The shape [YYYY-MM-DD]: ten characters, digits around two dashes. *)
Definition is_YYYY_MM_DD (s : string) : bool :=
  match s with
  | String y1 (String y2 (String y3 (String y4 (String s1
      (String m1 (String m2 (String s2 (String d1 (String d2
        EmptyString))))))))) =>
      is_digit y1 && is_digit y2 && is_digit y3 && is_digit y4
      && Ascii.eqb s1 "-" && is_digit m1 && is_digit m2
      && Ascii.eqb s2 "-" && is_digit d1 && is_digit d2
  | _ => false
  end.

(** The date-only text of a year 0..9999, a month 1..12 and a day. *)
Definition iso_date (y m d : Z) : string :=
  JSDate.pad4 y +:+ "-" +:+ JSDate.pad2 m +:+ "-" +:+ JSDate.pad2 d.

(** Length of month [m] (0-based) in year [y]. *)
Definition DaysInMonth (y m : Z) : Z :=
  match m with
  | 1 => if JSDate.DaysInYear y =? 366 then 29 else 28
  | 3 | 5 | 8 | 10 => 30
  | _ => 31
  end.

(** The white-space characters, one by one: TAB, LF, VT, FF, CR, SPACE
    and the no-break space. *)
Definition white (c : ascii) : bool :=
  existsb (Ascii.eqb c)
    ["009"%char; "010"%char; "011"%char; "012"%char; "013"%char;
     " "%char; "160"%char].

(** The text holds nothing but white space (so does the empty text). *)
Fixpoint white_only (s : string) : bool :=
  match s with
  | EmptyString => true
  | String c s' => white c && white_only s'
  end.

End Text.

(* ===================================================================== *)
(** ** What the forms call a missing field *)
(* ===================================================================== *)

Module Form.

(** A text field is blank when it holds nothing but white space: it is
    empty, or every character of it is a white-space character. *)
Definition blank (text : string) : bool := Text.white_only text.

(** No patient (or doctor) is picked: the cell is [null], or holds the id
    0, which the handler's test does not tell apart from [null]. *)
Definition missing_id (v : option Z) : bool :=
  match v with None => true | Some 0 => true | Some _ => false end.

Definition missing_date (v : option JSDate.Date) : bool :=
  match v with None => true | Some _ => false end.

(** All four required cells of the booking form are filled in. *)
Definition complete (s : BookAppointment.State) : bool :=
  negb (missing_id (BookAppointment.selectedPatient s))
  && negb (missing_id (BookAppointment.selectedDoctor s))
  && negb (missing_date (BookAppointment.date s))
  && negb (blank (BookAppointment.timeStr s)).

(** The field-level message of a required cell. *)
Definition required_message (missing : bool) (text : string) : string :=
  if missing then text else "".

(** The body of the creation call for a complete form whose date holds
    the time value [t]. *)
Definition payload (s : BookAppointment.State) (t : Z) : Api.AppointmentData :=
  {| Api.patient := BookAppointment.selectedPatient s;
     Api.doctor := BookAppointment.selectedDoctor s;
     Api.date := JSDate.date_text t;
     Api.time := BookAppointment.timeStr s;
     Api.reason :=
       match BookAppointment.reason s with
       | EmptyString => None
       | String _ _ => Some (BookAppointment.reason s)
       end;
     Api.status := false |}.

(** The booking form after validation: each field-level message is set
    for a missing cell and cleared for a filled one. *)
Definition checked (s : BookAppointment.State) : BookAppointment.State :=
  BookAppointment.mkState
    (BookAppointment.selectedPatient s) (BookAppointment.selectedDoctor s)
    (BookAppointment.date s) (BookAppointment.timeStr s)
    (BookAppointment.reason s) (BookAppointment.patients s)
    (BookAppointment.doctors s) (BookAppointment.loading s)
    (BookAppointment.submitting s) (BookAppointment.error s)
    (required_message (missing_id (BookAppointment.selectedPatient s))
       "Patient is required")
    (required_message (missing_id (BookAppointment.selectedDoctor s))
       "Doctor is required")
    (required_message (missing_date (BookAppointment.date s))
       "Date is required")
    (required_message (blank (BookAppointment.timeStr s))
       "Time is required").

(** The booking form after a submission that got past validation: not
    busy any more, with [banner] as its page-level message. *)
Definition settled (s : BookAppointment.State) (banner : JS.jsval)
    : BookAppointment.State :=
  BookAppointment.mkState
    (BookAppointment.selectedPatient s) (BookAppointment.selectedDoctor s)
    (BookAppointment.date s) (BookAppointment.timeStr s)
    (BookAppointment.reason s) (BookAppointment.patients s)
    (BookAppointment.doctors s) (BookAppointment.loading s)
    false banner "" "" "" "".

(** The request that the client transmits for a call built as [config],
    given the storage at send time. *)
Definition transmitted (w : Api.World) (config : Api.Request) : Api.Request :=
  match Api.localStorage w !! "authToken" with
  | Some token =>
      if String.eqb token "" then config
      else Api.set_headers
             (<["Authorization" := "Bearer " +:+ token]> (Api.headers config))
             config
  | None => config
  end.

(** The creation request of a complete form. *)
Definition creation_request (env : Api.Env) (w : Api.World)
    (s : BookAppointment.State) (t : Z) : Api.Request :=
  transmitted w
    (Api.make_request env Api.POST Api.endpoints.patients_appointments
       (Api.AppointmentBody (payload s t))).

End Form.

(* ===================================================================== *)
(** ** Concrete browsers, backends and forms used in the examples *)
(* ===================================================================== *)

Module Samples.
Import JS Eff Api.

(** A browser with nothing stored and nothing logged. *)
Definition fresh_world : World := mkWorld ∅ [] [] [] [].

Definition world_with_token (token : string) : World :=
  mkWorld {[ "authToken" := token ]} [] [] [] [].

Definition jane : Patient :=
  mkPatient 1 (Some "Jane") (Some "Doe") "1990-06-15" Female None None
    "12 Hospital Road" None None None.

Definition booked (d : AppointmentData) : Appointment := mkAppointment 7 d.

(** A backend that accepts everything. *)
Definition obliging_env : Env :=
  mkEnv None
    (fun _ => Normal (mkAuthResponse "header.payload.signature" "r3fr3sh"))
    (fun _ => Normal (mkPatientsResponse [jane] 1))
    (fun _ => Normal (mkDoctorsResponse [] 0))
    (fun r => match data r with
              | AppointmentBody d => Normal (booked d)
              | _ => Throw (AxiosError 400 JNull)
              end).

(** A backend that answers every request with the same non-2xx response. *)
Definition rejecting_env (status_code : Z) (body : jsval) : Env :=
  mkEnv None
    (fun _ => Throw (AxiosError status_code body))
    (fun _ => Throw (AxiosError status_code body))
    (fun _ => Throw (AxiosError status_code body))
    (fun _ => Throw (AxiosError status_code body)).

(** 2024-12-15T10:00:00.000Z *)
Definition mid_december : Z := 1734256800000.

(** Local-time offsets: UTC, and four hours behind UTC (the offset of the
    east coast of North America in June). *)
Definition utc : Z -> Z := fun _ => 0.
Definition four_hours_behind : Z -> Z := fun _ => -14400000.

Definition one_hour_ahead : Z -> Z := fun _ => 3600000.

(** 2024-12-14T23:00:00Z, which is midnight of 15 December one hour ahead
    of UTC. *)
Definition local_midnight_december_15 : Z := 1734217200000.

(** 2024-06-14T16:00:00Z, which is noon of 14 June four hours behind
    UTC, and 2025-06-15T12:00:00Z. *)
Definition june_14_2024 : Z := 1718380800000.
Definition june_15_2025 : Z := 1749988800000.

Definition login_form : Login.State :=
  Login.mkState "nurse@hms.example" "s3cret" "" "" (JStr "") false.

(** The booking form of the scenario: patient 5, doctor 2, a date, a
    time, no reason. *)
Definition booking_form (date : JSDate.Date) (time : string)
    : BookAppointment.State :=
  BookAppointment.mkState (Some 5) (Some 2) (Some date) time ""
    [] [] false false (JStr "") "" "" "" "".

Definition patients_page : Patients.State := Patients.mkState [] false "".

(** The body with which the token endpoint refuses a login, and a
    body that holds neither of the fields the pages look for. *)
Definition detail_body : jsval :=
  JObj {[ "detail" := JStr "No active account found with the given credentials" ]}.

Definition bare_body : jsval := JObj {[ "code" := JStr "bad_request" ]}.

(** A backend whose list answers carry a count that is not the length of
    the list. *)
Definition miscounting_env : Env :=
  mkEnv None
    (fun _ => Throw NetworkError)
    (fun _ => Normal (mkPatientsResponse [] 1))
    (fun _ => Normal (mkDoctorsResponse [] 1))
    (fun _ => Throw NetworkError).

End Samples.

(* ===================================================================== *)
(** ** [apiConfig.endpoints]: the path builders *)
(* ===================================================================== *)

Module ApiPaths.

(** An id is a [string | number].  A number is an integer here (ids are
    keys assigned by the server); inside a template literal it prints in
    decimal, with a minus sign when negative.  (JavaScript prints a number
    in exponent form from 1e21 on, far beyond such keys.) *)
Inductive Id : Type :=
| IdText (s : string)
| IdNumber (n : Z).

Definition number_text (n : Z) : string :=
  NilEmpty.string_of_int (Z.to_int n).

Definition id_text (id : Id) : string :=
  match id with
  | IdText s => s
  | IdNumber n => number_text n
  end.

Module auth.
Definition token : string := Api.endpoints.auth_token.
Definition tokenRefresh : string := "/api/token/refresh/".
Definition register : string := "/register".
End auth.

Module patients.
Definition list : string := Api.endpoints.patients_list.
Definition detail (id : Id) : string := "/patients/" +:+ id_text id.
Definition vitals (id : Id) : string :=
  "/patients/" +:+ id_text id +:+ "/vitals".
Definition medicalRecords (id : Id) : string :=
  "/patients/" +:+ id_text id +:+ "/records".
Definition medicalRecordDetail (patientId recordId : Id) : string :=
  "/patients/" +:+ id_text patientId +:+ "/records/" +:+ id_text recordId.
Definition emergencyContact (id : Id) : string :=
  "/patients/" +:+ id_text id +:+ "/emergency_contact".
Definition checkIns : string := "/patients/check-ins".
Definition checkInDetail (id : Id) : string :=
  "/patients/check-ins/" +:+ id_text id.
Definition appointments : string := Api.endpoints.patients_appointments.
Definition appointmentDetail (id : Id) : string :=
  "/patients/appointments/" +:+ id_text id.
End patients.

Module staff.
Definition doctors : string := Api.endpoints.staff_doctors.
Definition doctorDetail (id : Id) : string :=
  "/staff/doctors/" +:+ id_text id.
End staff.

End ApiPaths.

(* ===================================================================== *)
(** ** The resources behind the paths *)
(* ===================================================================== *)

Module Routes.

(** What a path of the client stands for, with numeric ids. *)
Inductive Route : Type :=
| Token
| TokenRefresh
| Register
| PatientList
| PatientDetail (id : Z)
| Vitals (id : Z)
| MedicalRecords (id : Z)
| MedicalRecordDetail (patientId recordId : Z)
| EmergencyContact (id : Z)
| CheckIns
| CheckInDetail (id : Z)
| Appointments
| AppointmentDetail (id : Z)
| Doctors
| DoctorDetail (id : Z).

(** The path that [apiConfig.endpoints] gives for a route. *)
Definition path (r : Route) : string :=
  match r with
  | Token => ApiPaths.auth.token
  | TokenRefresh => ApiPaths.auth.tokenRefresh
  | Register => ApiPaths.auth.register
  | PatientList => ApiPaths.patients.list
  | PatientDetail id => ApiPaths.patients.detail (ApiPaths.IdNumber id)
  | Vitals id => ApiPaths.patients.vitals (ApiPaths.IdNumber id)
  | MedicalRecords id =>
      ApiPaths.patients.medicalRecords (ApiPaths.IdNumber id)
  | MedicalRecordDetail p r =>
      ApiPaths.patients.medicalRecordDetail (ApiPaths.IdNumber p)
        (ApiPaths.IdNumber r)
  | EmergencyContact id =>
      ApiPaths.patients.emergencyContact (ApiPaths.IdNumber id)
  | CheckIns => ApiPaths.patients.checkIns
  | CheckInDetail id => ApiPaths.patients.checkInDetail (ApiPaths.IdNumber id)
  | Appointments => ApiPaths.patients.appointments
  | AppointmentDetail id =>
      ApiPaths.patients.appointmentDetail (ApiPaths.IdNumber id)
  | Doctors => ApiPaths.staff.doctors
  | DoctorDetail id => ApiPaths.staff.doctorDetail (ApiPaths.IdNumber id)
  end.

(** The pieces of a text between the occurrences of [sep]. *)
Fixpoint split_on (sep : ascii) (s : string) : list string :=
  match s with
  | EmptyString => [EmptyString]
  | String c s' =>
      if Ascii.eqb c sep then EmptyString :: split_on sep s'
      else match split_on sep s' with
           | piece :: pieces => String c piece :: pieces
           | [] => [String c EmptyString]
           end
  end.

(** The pieces put together again, [sep] between them. *)
Fixpoint join (sep : ascii) (pieces : list string) : string :=
  match pieces with
  | [] => EmptyString
  | [piece] => piece
  | piece :: rest => piece +:+ String sep (join sep rest)
  end.

(** Reading a decimal integer. *)
Definition read_number (s : string) : option Z :=
  match s with
  | EmptyString => None
  | String _ _ => option_map Z.of_int (NilEmpty.int_of_string s)
  end.

(** Reading a path back: the way a router of the backend would. *)
Definition route (url : string) : option Route :=
  match split_on "/" url with
  | [ ""; "api"; "token"; "" ] => Some Token
  | [ ""; "api"; "token"; "refresh"; "" ] => Some TokenRefresh
  | [ ""; "register" ] => Some Register
  | [ ""; "staff"; "doctors" ] => Some Doctors
  | [ ""; "staff"; "doctors"; x ] => option_map DoctorDetail (read_number x)
  | [ ""; "patients"; x ] =>
      match read_number x with
      | Some id => Some (PatientDetail id)
      | None =>
          if String.eqb x "" then Some PatientList
          else if String.eqb x "check-ins" then Some CheckIns
          else if String.eqb x "appointments" then Some Appointments
          else None
      end
  | [ ""; "patients"; x; y ] =>
      match read_number x with
      | Some id =>
          if String.eqb y "vitals" then Some (Vitals id)
          else if String.eqb y "records" then Some (MedicalRecords id)
          else if String.eqb y "emergency_contact"
               then Some (EmergencyContact id)
          else None
      | None =>
          if String.eqb x "check-ins"
          then option_map CheckInDetail (read_number y)
          else if String.eqb x "appointments"
          then option_map AppointmentDetail (read_number y)
          else None
      end
  | [ ""; "patients"; x; kind; y ] =>
      if String.eqb kind "records"
      then p ← read_number x; r ← read_number y;
           Some (MedicalRecordDetail p r)
      else None
  | _ => None
  end.

End Routes.

(* ===================================================================== *)
(** ** The [Patients] page: what the table shows *)
(* ===================================================================== *)

Module PatientsView.
Import JS Eff Api.

(** [value || 'N/A'] on an optional text property. *)
Definition or_NA (v : option string) : string :=
  match v with
  | Some s => if truthy (JStr s) then s else "N/A"
  | None => "N/A"
  end.

(** [address ? address.substring(0, 20) + '...' : 'N/A'] *)
Definition address_cell (address : string) : string :=
  if truthy (JStr address) then String.substring 0 20 address +:+ "..."
  else "N/A".

(** The cells of a patient's row, in the order of the columns. *)
Record Row : Type := mkRow {
  cell_patient_id : Z;
  cell_first_name : string;
  cell_last_name : string;
  cell_gender : Gender;
  cell_age : option Z;
  cell_address : string;
  cell_email : string;
}.

Definition row (tza : Z -> Z) (now : Z) (patient : Patient) : Row :=
  mkRow (patient_id patient)
    (or_NA (first_name patient))
    (or_NA (last_name patient))
    (gender patient)
    (Patients.calculateAge tza now (date_of_birth patient))
    (address_cell (address patient))
    (or_NA (email patient)).

(** The body of the table:
    [loading ? ... : error ? ... : patients.length === 0 ? ... : rows]. *)
Inductive View : Type :=
| Loading
| Failed (message : string)
| NoPatients
| Table (rows : list Row).

Definition render (tza : Z -> Z) (now : Z) (s : Patients.State) : View :=
  if Patients.loading s then Loading
  else if truthy (JStr (Patients.error s)) then Failed (Patients.error s)
  else if (length (Patients.patients s) =? 0)%nat then NoPatients
  else Table (map (row tza now) (Patients.patients s)).

End PatientsView.

(* ===================================================================== *)
(** ** apiExamples.tsx: [AuthExample] *)
(* ===================================================================== *)

Module AuthExample.
Import JS Eff Api.

Record State : Type := mkState {
  isLoggedIn : bool;
  loginError : jsval;
}.

Definition setIsLoggedIn (v : bool) : M (State * World) unit :=
  on_fst (fun s => mkState v (loginError s)).
Definition setLoginError (v : jsval) : M (State * World) unit :=
  on_fst (fun s => mkState (isLoggedIn s) v).

(** [console.log(text)]: the console keeps the first two arguments of a
    call, the second being [undefined] here. *)
Definition console_log (text : string) : M World unit :=
  modify (log_console text JUndefined).

(** A [try]/[catch] with no [finally] block: the finalizer does nothing. *)
Definition handleLogin (env : Env) (username password : string)
    : M (State * World) unit :=
  try_catch_finally
    (response ← on_snd (authAPI.login env username password);
     on_snd (tokenUtils.setTokens (access response) (refresh response));;
     setIsLoggedIn true;;
     setLoginError (JStr "");;
     on_snd (console_log "Login successful!"))
    (fun error =>
       on_snd (console_error "Login failed:" error);;
       detail ← response_data_field error "detail";
       setLoginError (or_else detail (JStr "Login failed")))
    (mret tt).

Definition handleLogout : M (State * World) unit :=
  on_snd tokenUtils.removeTokens;;
  setIsLoggedIn false.

End AuthExample.

(* ===================================================================== *)
(** ** The [BookAppointment] page: the entries of the two pickers *)
(* ===================================================================== *)

Module BookingOptions.
Import JS Api.

(** A [string | undefined] inside a template literal. *)
Definition template_optional (v : option string) : string :=
  default "undefined" v.

Record PickerOption : Type := mkPickerOption {
  label : string;
  value : Z;
}.

Definition patientOptions (patients : list Patient) : list PickerOption :=
  map (fun patient =>
         mkPickerOption
           (template_optional (first_name patient) +:+ " "
            +:+ template_optional (last_name patient) +:+ " (ID: "
            +:+ ApiPaths.number_text (patient_id patient) +:+ ")")
           (patient_id patient))
      patients.

Definition doctorOptions (doctors : list Doctor) : list PickerOption :=
  map (fun doctor =>
         mkPickerOption
           ("Dr. " +:+ doctor_first_name doctor +:+ " "
            +:+ doctor_last_name doctor +:+ " - " +:+ specialty doctor)
           (doctor_id doctor))
      doctors.

End BookingOptions.

(* ===================================================================== *)
(** ** More shapes of text *)
(* ===================================================================== *)

Module Shapes.

(** Every character of the text is white space (so does the empty text). *)
Fixpoint all_space (s : string) : bool :=
  match s with
  | EmptyString => true
  | String c s' => JS.is_space c && all_space s'
  end.

(** The login form after validation. *)
Definition checked_login (s : Login.State) : Login.State :=
  Login.mkState (Login.email s) (Login.password s)
    (Form.required_message (Form.blank (Login.email s)) "Email is required")
    (Form.required_message (Form.blank (Login.password s))
       "Password is required")
    (JS.JStr "") (Login.isLoading s).

(** The request of a login with the form's cells. *)
Definition login_request (env : Api.Env) (w : Api.World) (s : Login.State)
    : Api.Request :=
  Form.transmitted w
    (Api.make_request env Api.POST Api.endpoints.auth_token
       (Api.Credentials (Login.email s) (Login.password s))).

End Shapes.

(* ===================================================================== *)
(** ** More concrete inputs for the examples *)
(* ===================================================================== *)

Module MoreSamples.
Import JS Eff Api.

(** A storage that holds a token pair and a key of another feature. *)
Definition busy_world : World :=
  mkWorld {[ "authToken" := "old.access"; "refreshToken" := "old.refresh";
             "theme" := "dark" ]} [] [] [] [].

Definition blank_login_form : Login.State :=
  Login.mkState "   " "s3cret" "" "" (JStr "stale") false.

Definition padded_login_form : Login.State :=
  Login.mkState " nurse@hms.example " "s3cret" "" "" (JStr "stale") false.

Definition logged_out : AuthExample.State :=
  AuthExample.mkState false (JStr "").

Definition nameless : Patient :=
  mkPatient 3 None None "2001-02-03" Male None None "" None None None.

(** Two doctors of the same name and specialty. *)
Definition doctor_ada (id : Z) : Doctor :=
  mkDoctor id "Ada" "Osei" "1980-01-01" "Cardiology" Female None None
    "1 Ward Lane".

End MoreSamples.

(* ===================================================================== *)
(** * Properties *)
(* ===================================================================== *)

Import JS Eff Api Samples.

Ltac unfold_eff :=
  unfold on_snd, on_fst, attempt, of_completion,
    modify, gets, throw, mbind, mret, M_bind, M_ret, bind, ret in *.

Ltac unfold_storage :=
  unfold tokenUtils.setTokens, tokenUtils.removeTokens,
    tokenUtils.getAccessToken, tokenUtils.getRefreshToken,
    tokenUtils.isAuthenticated, request_interceptor,
    setItem, removeItem, getItem in *.

(** ** Token persistence *)

(** C5. After [setTokens access refresh] the two getters return [access]
    and [refresh]; after [removeTokens] (from any storage) both getters
    return [null] and neither key is left in the storage. *)
Theorem tokens_round_trip (access refresh : string) (w : World) :
  let w1 := snd (tokenUtils.setTokens access refresh w) in
  let w2 := snd (tokenUtils.removeTokens w1) in
  let w3 := snd (tokenUtils.removeTokens w) in
  fst (tokenUtils.getAccessToken w1) = Normal (Some access)
  /\ fst (tokenUtils.getRefreshToken w1) = Normal (Some refresh)
  /\ fst (tokenUtils.getAccessToken w2) = Normal None
  /\ fst (tokenUtils.getRefreshToken w2) = Normal None
  /\ fst (tokenUtils.getAccessToken w3) = Normal None
  /\ fst (tokenUtils.getRefreshToken w3) = Normal None
  /\ localStorage w2 !! "authToken" = None
  /\ localStorage w2 !! "refreshToken" = None.
Proof.
  unfold_storage. unfold_eff. cbn.
  repeat split; try (f_equal); by simplify_map_eq.
Qed.

(** C8 fails as stated: with the empty string stored under the key, a
    token is present in the storage ([getItem] does not return [null]) and
    [isAuthenticated] answers [false]. *)
Lemma isAuthenticated_empty_token :
  is_Some (localStorage (world_with_token "") !! "authToken")
  /\ fst (tokenUtils.getAccessToken (world_with_token "")) = Normal (Some "")
  /\ fst (tokenUtils.isAuthenticated (world_with_token "")) = Normal false.
Proof. split; [by eexists | split; reflexivity]. Qed.

(** C8, amended.  [isAuthenticated] answers [true] exactly when a
    non-empty string is stored under the access-token key; it reads
    nothing else, so expiry, signature and content play no part, and it
    leaves the browser as it was. *)
Theorem isAuthenticated_iff_nonempty_token (w : World) :
  (fst (tokenUtils.isAuthenticated w) = Normal true
   <-> exists token, localStorage w !! "authToken" = Some token /\ token <> "")
  /\ (fst (tokenUtils.isAuthenticated w) = Normal false
      <-> localStorage w !! "authToken" = None
          \/ localStorage w !! "authToken" = Some "")
  /\ snd (tokenUtils.isAuthenticated w) = w.
Proof.
  unfold_storage. unfold_eff. cbn.
  destruct (localStorage w !! "authToken") as [token|] eqn:E; cbn.
  - destruct (String.eqb_spec token "") as [->|Hne]; cbn.
    + repeat split; try discriminate; auto.
      intros (t & [= <-] & Ht). congruence.
    + repeat split; try discriminate; eauto.
      intros [?|[= ->]]; congruence.
  - repeat split; try discriminate; auto.
    intros (t & ? & _). discriminate.
Qed.

(** ** The request interceptor *)

Lemma request_interceptor_cases (config : Request) (w : World) :
  request_interceptor config w =
    (Normal
       match localStorage w !! "authToken" with
       | Some token =>
           if String.eqb token "" then config
           else set_headers
                  (<["Authorization" := "Bearer " +:+ token]> (headers config))
                  config
       | None => config
       end, w).
Proof.
  unfold_storage. unfold_eff. cbn.
  destruct (localStorage w !! "authToken") as [token|]; cbn; [|done].
  by destruct (String.eqb token "").
Qed.

Lemma apiClient_run {T} (service : Request -> completion T)
    (config : Request) (w : World) :
  apiClient service config w =
    (service (Form.transmitted w config),
     log_request (Form.transmitted w config) w).
Proof.
  unfold apiClient. unfold_eff. by rewrite request_interceptor_cases.
Qed.

Lemma make_request_no_authorization env m path d :
  headers (make_request env m path d) !! "Authorization" = None.
Proof. reflexivity. Qed.

(** C10. With the empty string stored as access token, the interceptor
    returns the request as it received it (so a request built by the
    client carries no Authorization header) and [isAuthenticated] answers
    [false], while [getAccessToken] returns the empty string, not [null]. *)
Theorem empty_token_is_treated_as_absent (w : World) (config : Request) :
  localStorage w !! "authToken" = Some "" ->
  request_interceptor config w = (Normal config, w)
  /\ (forall env m path d,
        exists sent,
          request_interceptor (make_request env m path d) w = (Normal sent, w)
          /\ headers sent !! "Authorization" = None)
  /\ tokenUtils.isAuthenticated w = (Normal false, w)
  /\ tokenUtils.getAccessToken w = (Normal (Some ""), w).
Proof.
  intros Hempty. split; [|split; [|split]].
  - by rewrite request_interceptor_cases, Hempty.
  - intros env m path d. eexists. split.
    + by rewrite request_interceptor_cases, Hempty.
    + reflexivity.
  - unfold_storage. unfold_eff. cbn. by rewrite Hempty.
  - unfold_storage. unfold_eff. cbn. by rewrite Hempty.
Qed.

Lemma empty_token_is_treated_as_absent_witness :
  localStorage (world_with_token "") !! "authToken" = Some ""
  /\ request_interceptor
       (make_request obliging_env GET endpoints.patients_list NoBody)
       (world_with_token "")
     = (Normal (make_request obliging_env GET endpoints.patients_list NoBody),
        world_with_token "").
Proof.
  split; [reflexivity|].
  apply (empty_token_is_treated_as_absent (world_with_token "")); reflexivity.
Defined.

(** C6 fails as stated: with the empty string stored under the key, an
    access token is present in the storage at send time, and the request
    goes out without an Authorization header. *)
Lemma empty_token_sent_without_header :
  fst (tokenUtils.getAccessToken (world_with_token "")) = Normal (Some "")
  /\ exists sent,
       network (snd (patientsAPI.getAll obliging_env (world_with_token "")))
         = [sent]
       /\ headers sent !! "Authorization" = None.
Proof.
  split; [reflexivity|]. eexists. split; reflexivity.
Qed.

(** C6, amended.  Every call through the client transmits exactly one
    request and settles with the backend's answer to it: the client never
    blocks a call.  The transmitted request is the one the call built,
    with [Authorization: Bearer <token>] set when a non-empty access token
    is stored at send time, and unchanged (no header added) when the key
    is missing or holds the empty string. *)
Theorem apiClient_bearer_policy {T} (service : Request -> completion T)
    (config : Request) (w : World) :
  exists sent,
    apiClient service config w = (service sent, log_request sent w)
    /\ network (log_request sent w) = (network w ++ [sent])%list
    /\ method sent = method config /\ url sent = url config
    /\ data sent = data config /\ baseURL sent = baseURL config
    /\ (forall token,
          localStorage w !! "authToken" = Some token -> token <> "" ->
          headers sent
            = <["Authorization" := "Bearer " +:+ token]> (headers config)
          /\ headers sent !! "Authorization" = Some ("Bearer " +:+ token))
    /\ (localStorage w !! "authToken" = None
        \/ localStorage w !! "authToken" = Some "" ->
        sent = config).
Proof.
  unfold apiClient. unfold_eff. rewrite request_interceptor_cases.
  eexists. split; [reflexivity|]. split; [reflexivity|].
  destruct (localStorage w !! "authToken") as [token|] eqn:E.
  - destruct (String.eqb_spec token "") as [->|Hne].
    + do 4 (split; [reflexivity|]). split.
      * intros t [= <-] Ht. congruence.
      * reflexivity.
    + do 4 (split; [reflexivity|]). split.
      * intros t [= <-] _. split; [reflexivity|]. cbn. by simplify_map_eq.
      * intros [?|[= ->]]; congruence.
  - do 4 (split; [reflexivity|]). split.
    + intros t [=].
    + reflexivity.
Qed.

(** With a token stored, the header goes out with the request; a GET has
    no body, and goes out without a Content-Type. *)
Lemma stored_token_is_sent_as_bearer :
  exists sent,
    network (snd (patientsAPI.getAll obliging_env
                    (world_with_token "header.payload.signature")))
      = [sent]
    /\ headers (wire sent) !! "Authorization"
       = Some "Bearer header.payload.signature"
    /\ headers (wire sent) !! "Content-Type" = None.
Proof. eexists. repeat split; reflexivity. Qed.

(** ** Read operations *)

(** C7 fails as stated: the client returns the count the backend sent and
    does not compare it with the list. *)
Lemma getAll_count_is_not_checked :
  fst (patientsAPI.getAll miscounting_env fresh_world)
    = Normal (mkPatientsResponse [] 1)
  /\ fst (doctorsAPI.getAll miscounting_env fresh_world)
      = Normal (mkDoctorsResponse [] 1)
  /\ patient_count (mkPatientsResponse [] 1)
      <> Z.of_nat (length (patients (mkPatientsResponse [] 1))).
Proof. split; [reflexivity|]. split; [reflexivity|]. cbn. lia. Qed.

(** C7, amended.  [patientsAPI.getAll] and [doctorsAPI.getAll] transmit one
    GET request and return the backend's answer to it unchanged, so the
    count field equals the length of the list exactly when it does in the
    body the backend sent; a second call right after the first transmits
    the same request and returns the same result. *)
Theorem getAll_returns_backend_answer (env : Env) (w : World) :
  (exists sent,
     patientsAPI.getAll env w = (patients_service env sent, log_request sent w)
     /\ method sent = GET /\ url sent = "/patients/"
     /\ patientsAPI.getAll env (log_request sent w)
        = (patients_service env sent, log_request sent (log_request sent w)))
  /\ (exists sent,
       doctorsAPI.getAll env w = (doctors_service env sent, log_request sent w)
       /\ method sent = GET /\ url sent = "/staff/doctors"
       /\ doctorsAPI.getAll env (log_request sent w)
          = (doctors_service env sent, log_request sent (log_request sent w))).
Proof.
  unfold patientsAPI.getAll, doctorsAPI.getAll.
  split; eexists; rewrite !apiClient_run; unfold Form.transmitted;
    cbn [localStorage log_request]; (split; [reflexivity|]);
    destruct (localStorage w !! "authToken") as [token|];
    try destruct (String.eqb token ""); repeat split; reflexivity.
Qed.

(** ** Exceptions and cleanup *)

Arguments try_catch_finally : simpl never.
Arguments response_data_field : simpl never.
Arguments AxiosError : simpl never.

(** Whatever the finalizer establishes from every state holds after the
    whole [try] statement: the finalizer is run on every path. *)
Lemma finally_runs {S A} (body : M S A) (handler : jsval -> M S A)
    (finalizer : M S unit) (P : S -> Prop) (s : S) :
  (forall s1, P (snd (finalizer s1))) ->
  P (snd (try_catch_finally body handler finalizer s)).
Proof.
  intros Hfin. unfold try_catch_finally.
  destruct (body s) as [[a|e] s'].
  - specialize (Hfin s'). by destruct (finalizer s') as [[[]|e] s2].
  - destruct (handler e s') as [r s1]. specialize (Hfin s1).
    by destruct (finalizer s1) as [[[]|e'] s2].
Qed.

Lemma opt_chain_get_prop (v : jsval) (k : string) :
  opt_chain v k = get_prop v k.
Proof. by destruct v. Qed.

Lemma response_data_field_AxiosError {S} (st : Z) (body : jsval)
    (k : string) (s : S) :
  response_data_field (AxiosError st body) k s = (Normal (get_prop body k), s).
Proof.
  unfold response_data_field, AxiosError. unfold_eff.
  change (member _ "response") with
    (Normal (JObj {[ "status" := JNum st; "data" := body ]})).
  cbv beta iota. rewrite !opt_chain_get_prop. reflexivity.
Qed.

(** ** White space and blank fields *)

(** The class that [trim] strips is the seven white-space characters. *)
Lemma is_space_white (c : ascii) : is_space c = Text.white c.
Proof. by destruct c as [[] [] [] [] [] [] [] []]. Qed.

Lemma all_space_white_only (s : string) :
  Shapes.all_space s = Text.white_only s.
Proof.
  induction s as [|c s IH]; cbn [Shapes.all_space Text.white_only]; [done|].
  by rewrite is_space_white, IH.
Qed.

Lemma trimStart_empty (s : string) :
  trimStart s = "" <-> Shapes.all_space s = true.
Proof.
  induction s as [|c s IH]; cbn [trimStart Shapes.all_space]; [done|].
  destruct (is_space c); cbn [andb]; [exact IH|]. split; discriminate.
Qed.

Lemma all_space_rev_string (s acc : string) :
  Shapes.all_space (rev_string s acc)
  = Shapes.all_space s && Shapes.all_space acc.
Proof.
  revert acc. induction s as [|c s IH]; intros acc;
    cbn [rev_string Shapes.all_space]; [done|].
  rewrite IH. cbn [Shapes.all_space].
  destruct (is_space c), (Shapes.all_space s), (Shapes.all_space acc); done.
Qed.

Lemma rev_string_empty (s acc : string) :
  rev_string s acc = "" <-> s = "" /\ acc = "".
Proof.
  revert acc. induction s as [|c s IH]; intros acc; cbn [rev_string].
  - split; [auto|]. by intros [_ ->].
  - rewrite IH. split; [intros [_ [=]]|intros [[=] _]].
Qed.

Lemma all_space_trimStart (s : string) :
  Shapes.all_space (trimStart s) = Shapes.all_space s.
Proof.
  induction s as [|c s IH]; cbn [trimStart Shapes.all_space]; [done|].
  destruct (is_space c) eqn:Hc; cbn [andb Shapes.all_space]; [exact IH|].
  by rewrite Hc.
Qed.

(** [trim] leaves nothing exactly of a text of white space only. *)
Lemma trim_empty (s : string) :
  trim s = "" <-> Shapes.all_space s = true.
Proof.
  unfold trim, trimEnd. rewrite rev_string_empty. split.
  - intros [H _]. apply trimStart_empty in H.
    rewrite all_space_rev_string, andb_true_r in H.
    by rewrite all_space_trimStart in H.
  - intros H. split; [|done]. apply trimStart_empty.
    by rewrite all_space_rev_string, andb_true_r, all_space_trimStart.
Qed.

(** A field is blank exactly when it holds nothing but white space. *)
Lemma blank_iff_all_space (s : string) :
  Form.blank s = Shapes.all_space s.
Proof. unfold Form.blank. by rewrite all_space_white_only. Qed.

(** The handlers' tests, read as the form's notions. *)
Lemma trim_eqb_blank (text : string) :
  String.eqb (trim text) "" = Form.blank text.
Proof.
  rewrite blank_iff_all_space. pose proof (trim_empty text) as H.
  destruct (String.eqb_spec (trim text) "") as [E|E].
  - symmetry. by apply H.
  - destruct (Shapes.all_space text); [|done]. by destruct E; apply H.
Qed.

Lemma truthy_trim_blank (text : string) :
  truthy (JStr (trim text)) = negb (Form.blank text).
Proof. cbn. by rewrite trim_eqb_blank. Qed.

Lemma truthy_number_missing (v : option Z) :
  truthy_number v = negb (Form.missing_id v).
Proof. by destruct v as [[| |]|]. Qed.

Lemma is_Some_missing_date (v : option JSDate.Date) :
  bool_decide (is_Some v) = negb (Form.missing_date v).
Proof. by destruct v. Qed.

Lemma complete_fields (s : BookAppointment.State) :
  Form.complete s = true ->
  Form.missing_id (BookAppointment.selectedPatient s) = false
  /\ Form.missing_id (BookAppointment.selectedDoctor s) = false
  /\ Form.missing_date (BookAppointment.date s) = false
  /\ Form.blank (BookAppointment.timeStr s) = false.
Proof.
  unfold Form.complete. rewrite !andb_true_iff, !negb_true_iff. tauto.
Qed.

Ltac run_login He Hp :=
  unfold Login.onButtonClick; unfold_eff; cbn;
  rewrite !trim_eqb_blank, ?He, ?Hp; cbn.

Ltac run_booking :=
  unfold BookAppointment.handleSubmit; unfold_eff; cbn;
  rewrite !truthy_number_missing, !is_Some_missing_date, ?trim_eqb_blank.

Ltac by_finalizer P :=
  match goal with
  | |- context [try_catch_finally ?b ?h ?f ?st] =>
      apply (finally_runs b h f P); intros ?; reflexivity
  end.

(** C9. Whenever a handler gets past validation and so sets its busy flag,
    the flag is [false] again when the handler is done, whatever the
    backend answers and whatever is thrown on the way (a rejection with
    any value, a throw inside the [catch] clause): the reset sits in the
    [finally] block.  This holds for the login ([isLoading]), for the
    booking submission ([submitting]), for the patient-list fetch and for
    the load of the booking page ([loading]). *)
Theorem busy_flag_is_reset (env : Env) (w : World) :
  (forall s : Login.State,
     Form.blank (Login.email s) = false ->
     Form.blank (Login.password s) = false ->
     Login.isLoading (fst (snd (Login.onButtonClick env (s, w)))) = false)
  /\ (forall s : BookAppointment.State,
       Form.complete s = true ->
       BookAppointment.submitting
         (fst (snd (BookAppointment.handleSubmit env (s, w)))) = false)
  /\ (forall s : Patients.State,
       Patients.loading (fst (snd (Patients.fetchPatients env (s, w))))
         = false)
  /\ (forall s : BookAppointment.State,
       BookAppointment.loading
         (fst (snd (BookAppointment.loadData env (s, w)))) = false).
Proof.
  split; [|split; [|split]].
  - intros s He Hp. run_login He Hp.
    by_finalizer (fun x : Login.State * World =>
                    Login.isLoading (fst x) = false).
  - intros s (Hp & Hd & Hdt & Ht)%complete_fields.
    run_booking. rewrite Hp, Hd, Hdt, Ht. cbn.
    by_finalizer (fun x : BookAppointment.State * World =>
                    BookAppointment.submitting (fst x) = false).
  - intros s. unfold Patients.fetchPatients. unfold_eff. cbn.
    by_finalizer (fun x : Patients.State * World =>
                    Patients.loading (fst x) = false).
  - intros s. unfold BookAppointment.loadData. unfold_eff. cbn.
    by_finalizer (fun x : BookAppointment.State * World =>
                    BookAppointment.loading (fst x) = false).
Qed.

Lemma busy_flag_is_reset_witness :
  Form.blank (Login.email login_form) = false
  /\ Form.blank (Login.password login_form) = false
  /\ Login.isLoading
       (fst (snd (Login.onButtonClick (rejecting_env 500 JNull)
                    (login_form, fresh_world)))) = false
  /\ Form.complete (booking_form (JSDate.mkDate (Some mid_december)) "10:00")
     = true
  /\ BookAppointment.submitting
       (fst (snd (BookAppointment.handleSubmit obliging_env
                    (booking_form (JSDate.mkDate (Some mid_december)) "10:00",
                     fresh_world)))) = false.
Proof.
  split; [reflexivity|]. split; [reflexivity|]. split.
  - apply (proj1 (busy_flag_is_reset (rejecting_env 500 JNull) fresh_world));
      reflexivity.
  - split; [reflexivity|].
    apply (proj1 (proj2 (busy_flag_is_reset obliging_env fresh_world)));
      reflexivity.
Defined.

(** A rejection with [null] makes the [catch] clause of the login handler
    throw a [TypeError] of its own ([error.response] on [null]); the
    handler ends by that throw, and the flag is reset all the same. *)
Lemma onButtonClick_catch_clause_throws :
  let env := mkEnv None (fun _ => Throw JNull) (fun _ => Throw JNull)
               (fun _ => Throw JNull) (fun _ => Throw JNull) in
  let '(r, (s, w)) := Login.onButtonClick env (login_form, fresh_world) in
  r = Throw (error_object "TypeError" "Cannot read properties of undefined")
  /\ Login.isLoading s = false
  /\ Login.loginError s = JStr "".
Proof. cbn. repeat split; reflexivity. Qed.

(** ** The text of a date *)

Lemma digit_cases (n : Z) :
  In (JSDate.digit n)
     ["0"; "1"; "2"; "3"; "4"; "5"; "6"; "7"; "8"; "9"]%char.
Proof.
  unfold JSDate.digit.
  assert (H : 0 <= n mod 10 < 10) by (apply Z.mod_pos_bound; lia).
  assert (Hk : (Z.to_nat (n mod 10) < 10)%nat) by lia.
  destruct (Z.to_nat (n mod 10)) as [|[|[|[|[|[|[|[|[|[|k]]]]]]]]]];
    cbn; auto 12; lia.
Qed.

Lemma digit_is_digit (n : Z) : Text.is_digit (JSDate.digit n) = true.
Proof.
  pose proof (digit_cases n) as H. cbn in H.
  repeat (destruct H as [<-|H]; [reflexivity|]). destruct H.
Qed.

Lemma digit_not_T (n : Z) : Ascii.eqb (JSDate.digit n) "T" = false.
Proof.
  pose proof (digit_cases n) as H. cbn in H.
  repeat (destruct H as [<-|H]; [reflexivity|]). destruct H.
Qed.

Lemma digit_value_digit (n : Z) :
  JSDate.digit_value (JSDate.digit n) = Some (n mod 10).
Proof.
  unfold JSDate.digit.
  assert (H : 0 <= n mod 10 < 10) by (apply Z.mod_pos_bound; lia).
  assert (Hk : (Z.to_nat (n mod 10) < 10)%nat) by lia.
  rewrite <- (Z2Nat.id (n mod 10)) at 2 by lia.
  destruct (Z.to_nat (n mod 10)) as [|[|[|[|[|[|[|[|[|[|k]]]]]]]]]];
    try reflexivity; lia.
Qed.

Arguments JSDate.digit : simpl never.

Lemma split_head_app (c : ascii) (a rest : string) :
  Text.avoids c a = true -> split_head c (a +:+ String c rest) = a.
Proof.
  induction a as [|x a IH]; simpl.
  - intros _. by rewrite Ascii.eqb_refl.
  - intros [Hx Ha]%andb_true_iff. apply negb_true_iff in Hx.
    rewrite Hx. f_equal. by apply IH.
Qed.

Lemma avoids_app (c : ascii) (a b : string) :
  Text.avoids c (a +:+ b) = Text.avoids c a && Text.avoids c b.
Proof.
  induction a as [|x a IH]; simpl; [done|]. by rewrite IH, andb_assoc.
Qed.

Lemma year_text_avoids_T (y : Z) : Text.avoids "T" (JSDate.year_text y) = true.
Proof.
  unfold JSDate.year_text, JSDate.pad6, JSDate.pad4, JSDate.pad3, JSDate.pad2.
  destruct ((0 <=? y) && (y <=? 9999)); [|destruct (y <? 0)];
    cbn [Text.avoids]; by rewrite !digit_not_T.
Qed.

Lemma date_text_avoids_T (t : Z) : Text.avoids "T" (JSDate.date_text t) = true.
Proof.
  unfold JSDate.date_text. rewrite !avoids_app, year_text_avoids_T.
  unfold JSDate.pad2. cbn [Text.avoids]. by rewrite !digit_not_T.
Qed.

(** [toISOString().split('T')[0]] is the date part of the ISO text. *)
Lemma formatDate_valid {S} (t : Z) (s : S) :
  BookAppointment.formatDate (Some (JSDate.mkDate (Some t))) s
    = (Normal (JSDate.date_text t), s).
Proof.
  unfold BookAppointment.formatDate, JSDate.toISOString. unfold_eff.
  cbn [JSDate.time_value].
  change (JSDate.date_text t +:+ "T" +:+ JSDate.clock_text t +:+ "Z")
    with (JSDate.date_text t +:+ String "T" (JSDate.clock_text t +:+ "Z")).
  by rewrite split_head_app by apply date_text_avoids_T.
Qed.

Lemma formatDate_invalid {S} (s : S) :
  BookAppointment.formatDate (Some (JSDate.mkDate None)) s
    = (Throw (error_object "RangeError" "Invalid time value"), s).
Proof. reflexivity. Qed.

Arguments BookAppointment.formatDate : simpl never.

(** ** The booking handler, step by step *)

Lemma response_data_field_state {S} (e : jsval) (k : string) (s : S) :
  snd (response_data_field e k s) = s.
Proof.
  unfold response_data_field. unfold_eff. by destruct (member e "response").
Qed.

Lemma transmitted_shape (w : World) (config : Request) :
  method (Form.transmitted w config) = method config
  /\ url (Form.transmitted w config) = url config
  /\ data (Form.transmitted w config) = data config
  /\ baseURL (Form.transmitted w config) = baseURL config.
Proof.
  unfold Form.transmitted.
  destruct (localStorage w !! "authToken") as [token|];
    [destruct (String.eqb token "")|]; by repeat split.
Qed.

Lemma reason_or_undefined (text : string) :
  (if negb (String.eqb text "") then Some text else None)
  = match text with EmptyString => None | String _ _ => Some text end.
Proof. by destruct text. Qed.

Ltac booking_complete H :=
  let Hp := fresh "Hp" in let Hd := fresh "Hd" in
  let Hdt := fresh "Hdt" in let Ht := fresh "Ht" in
  destruct (complete_fields _ H) as (Hp & Hd & Hdt & Ht);
  run_booking; rewrite Hp, Hd, Hdt, Ht; cbn;
  unfold try_catch_finally, patientsAPI.appointments.create; unfold_eff; cbn.

(** A form with a missing cell: the messages are set, nothing else
    happens. *)
Lemma handleSubmit_incomplete (env : Env) (w : World)
    (s : BookAppointment.State) :
  Form.complete s = false ->
  BookAppointment.handleSubmit env (s, w) = (Normal tt, (Form.checked s, w)).
Proof.
  unfold Form.complete, Form.checked. intros H. run_booking.
  destruct (Form.missing_id (BookAppointment.selectedPatient s));
    destruct (Form.missing_id (BookAppointment.selectedDoctor s));
    destruct (Form.missing_date (BookAppointment.date s));
    destruct (Form.blank (BookAppointment.timeStr s));
    try discriminate H; reflexivity.
Qed.

(** A complete form and an accepted request. *)
Lemma handleSubmit_booked (env : Env) (w : World)
    (s : BookAppointment.State) (t : Z) (a : Appointment) :
  Form.complete s = true ->
  BookAppointment.date s = Some (JSDate.mkDate (Some t)) ->
  appointments_service env (Form.creation_request env w s t) = Normal a ->
  BookAppointment.handleSubmit env (s, w)
  = (Normal tt,
     (Form.settled s (JStr ""),
      log_navigation "/appointments"
        (log_alert "Appointment booked successfully!"
           (log_request (Form.creation_request env w s t) w)))).
Proof.
  intros Hc Hdate Hok. booking_complete Hc.
  rewrite Hdate, formatDate_valid, apiClient_run, reason_or_undefined. cbn.
  unfold Form.creation_request, Form.payload in Hok. rewrite Hok. cbn.
  unfold Form.settled. by rewrite Hdate.
Qed.

(** A complete form and a request answered outside 2xx. *)
Lemma handleSubmit_rejected (env : Env) (w : World)
    (s : BookAppointment.State) (t st : Z) (body : jsval) :
  Form.complete s = true ->
  BookAppointment.date s = Some (JSDate.mkDate (Some t)) ->
  appointments_service env (Form.creation_request env w s t)
    = Throw (AxiosError st body) ->
  BookAppointment.handleSubmit env (s, w)
  = (Normal tt,
     (Form.settled s
        (or_else (get_prop body "error")
           (or_else (get_prop body "message")
              (JStr "Failed to book appointment. Please try again."))),
      log_console "Error booking appointment:" (AxiosError st body)
        (log_request (Form.creation_request env w s t) w))).
Proof.
  intros Hc Hdate Hrej. booking_complete Hc.
  rewrite Hdate, formatDate_valid, apiClient_run, reason_or_undefined. cbn.
  unfold Form.creation_request, Form.payload in Hrej. rewrite Hrej. cbn.
  rewrite response_data_field_AxiosError. unfold or_else.
  destruct (truthy (get_prop body "error")); cbn;
    [|rewrite response_data_field_AxiosError; cbn];
    unfold Form.settled; by rewrite Hdate.
Qed.

(** A complete form whose date cell holds an invalid [Date]:
    [toISOString] throws before any request is built. *)
Lemma handleSubmit_invalid_date (env : Env) (w : World)
    (s : BookAppointment.State) :
  Form.complete s = true ->
  BookAppointment.date s = Some (JSDate.mkDate None) ->
  BookAppointment.handleSubmit env (s, w)
  = (Normal tt,
     (Form.settled s (JStr "Failed to book appointment. Please try again."),
      log_console "Error booking appointment:"
        (error_object "RangeError" "Invalid time value") w)).
Proof.
  intros Hc Hdate. booking_complete Hc.
  rewrite Hdate, formatDate_invalid. cbn.
  unfold Form.settled. by rewrite Hdate.
Qed.

(** A complete form with a valid date transmits exactly the creation
    request, whatever the backend answers. *)
Lemma handleSubmit_transmits (env : Env) (w : World)
    (s : BookAppointment.State) (t : Z) :
  Form.complete s = true ->
  BookAppointment.date s = Some (JSDate.mkDate (Some t)) ->
  network (snd (snd (BookAppointment.handleSubmit env (s, w))))
  = (network w ++ [Form.creation_request env w s t])%list.
Proof.
  intros Hc Hdate. booking_complete Hc.
  rewrite Hdate, formatDate_valid, apiClient_run, reason_or_undefined. cbn.
  fold (Form.payload s t).
  change (Form.transmitted w _) with (Form.creation_request env w s t).
  destruct (appointments_service env _) as [a|e]; cbn; [reflexivity|].
  unfold response_data_field. unfold_eff.
  destruct (member e "response") as [r|e']; cbn; [|reflexivity].
  destruct (truthy _); reflexivity.
Qed.

(** ** The other handlers, step by step *)

Lemma onButtonClick_rejected (env : Env) (w : World) (s : Login.State)
    (st : Z) (body : jsval) :
  Form.blank (Login.email s) = false ->
  Form.blank (Login.password s) = false ->
  (forall r, token_service env r = Throw (AxiosError st body)) ->
  Login.loginError (fst (snd (Login.onButtonClick env (s, w))))
  = or_else (get_prop body "detail")
      (or_else (get_prop body "message")
         (JStr "Invalid credentials. Please try again.")).
Proof.
  intros He Hp Hrej. run_login He Hp.
  unfold try_catch_finally, authAPI.login. unfold_eff. cbn.
  rewrite apiClient_run. cbn. rewrite Hrej. cbn.
  rewrite response_data_field_AxiosError. unfold or_else.
  destruct (truthy (get_prop body "detail")); cbn; [reflexivity|].
  by rewrite response_data_field_AxiosError.
Qed.

Lemma fetchPatients_rejected (env : Env) (w : World) (s : Patients.State)
    (e : jsval) :
  (forall r, patients_service env r = Throw e) ->
  Patients.error (fst (snd (Patients.fetchPatients env (s, w))))
  = "Failed to fetch patients. Please try again.".
Proof.
  intros Hrej. unfold Patients.fetchPatients, try_catch_finally,
    patientsAPI.getAll. unfold_eff. cbn.
  rewrite apiClient_run. cbn. by rewrite Hrej.
Qed.

Lemma loadData_rejected (env : Env) (w : World) (s : BookAppointment.State)
    (e : jsval) :
  (forall r, patients_service env r = Throw e)
  \/ (forall r, doctors_service env r = Throw e) ->
  BookAppointment.error (fst (snd (BookAppointment.loadData env (s, w))))
  = JStr "Failed to load patients and doctors".
Proof.
  intros Hrej. unfold BookAppointment.loadData, try_catch_finally,
    patientsAPI.getAll, doctorsAPI.getAll. unfold_eff. cbn.
  rewrite !apiClient_run. cbn.
  destruct Hrej as [Hrej|Hrej]; rewrite Hrej; cbn; [reflexivity|].
  by destruct (patients_service env _).
Qed.

Lemma or_else_cases (a b : jsval) :
  (truthy a = true -> or_else a b = a)
  /\ (truthy a = false -> or_else a b = b).
Proof. unfold or_else. by destruct (truthy a). Qed.

Lemma get_prop_field (m : gmap string jsval) (k : string) :
  get_prop (JObj m) k = default JUndefined (m !! k).
Proof. reflexivity. Qed.

(** ** Failure surfacing *)

(** C3 fails as stated: on the booking page a failed response whose body
    has a [detail] field is answered with the generic message; the page
    looks for a field named [error], not [detail]. *)
Lemma booking_ignores_detail :
  get_prop detail_body "detail"
    = JStr "No active account found with the given credentials"
  /\ BookAppointment.error
       (fst (snd (BookAppointment.handleSubmit (rejecting_env 401 detail_body)
                    (booking_form (JSDate.mkDate (Some mid_december)) "10:00",
                     fresh_world))))
     = JStr "Failed to book appointment. Please try again."
  /\ Patients.error
       (fst (snd (Patients.fetchPatients (rejecting_env 401 detail_body)
                    (patients_page, fresh_world))))
     = "Failed to fetch patients. Please try again.".
Proof.
  split; [reflexivity|]. split.
  - by rewrite (handleSubmit_rejected _ _ _ mid_december 401 detail_body).
  - by rewrite (fetchPatients_rejected _ _ _ (AxiosError 401 detail_body)).
Qed.

(** C3, amended.  After a call that failed with a response whose body is
    [body]:
    - the login page shows the body's [detail] when that is truthy, else
      its [message] when that is truthy, else
      "Invalid credentials. Please try again.";
    - the booking submission shows the body's [error] when that is
      truthy, else its [message] when that is truthy, else
      "Failed to book appointment. Please try again.";
    - the patient list and the load of the booking page show their fixed
      message whatever was thrown.
    A field that is absent reads as [undefined], which is not truthy. *)
Theorem failure_messages (env : Env) (w : World) (st : Z) (body : jsval) :
  (forall s : Login.State,
     Form.blank (Login.email s) = false ->
     Form.blank (Login.password s) = false ->
     (forall r, token_service env r = Throw (AxiosError st body)) ->
     let shown := Login.loginError (fst (snd (Login.onButtonClick env (s, w)))) in
     (truthy (get_prop body "detail") = true -> shown = get_prop body "detail")
     /\ (truthy (get_prop body "detail") = false ->
         truthy (get_prop body "message") = true ->
         shown = get_prop body "message")
     /\ (truthy (get_prop body "detail") = false ->
         truthy (get_prop body "message") = false ->
         shown = JStr "Invalid credentials. Please try again."))
  /\ (forall (s : BookAppointment.State) (t : Z),
       Form.complete s = true ->
       BookAppointment.date s = Some (JSDate.mkDate (Some t)) ->
       (forall r, appointments_service env r = Throw (AxiosError st body)) ->
       let shown :=
         BookAppointment.error
           (fst (snd (BookAppointment.handleSubmit env (s, w)))) in
       (truthy (get_prop body "error") = true -> shown = get_prop body "error")
       /\ (truthy (get_prop body "error") = false ->
           truthy (get_prop body "message") = true ->
           shown = get_prop body "message")
       /\ (truthy (get_prop body "error") = false ->
           truthy (get_prop body "message") = false ->
           shown = JStr "Failed to book appointment. Please try again."))
  /\ (forall (s : Patients.State) (e : jsval),
       (forall r, patients_service env r = Throw e) ->
       Patients.error (fst (snd (Patients.fetchPatients env (s, w))))
       = "Failed to fetch patients. Please try again.")
  /\ (forall (s : BookAppointment.State) (e : jsval),
       (forall r, patients_service env r = Throw e)
       \/ (forall r, doctors_service env r = Throw e) ->
       BookAppointment.error (fst (snd (BookAppointment.loadData env (s, w))))
       = JStr "Failed to load patients and doctors")
  /\ (forall (m : gmap string jsval) (k : string),
       m !! k = None -> truthy (get_prop (JObj m) k) = false).
Proof.
  split; [|split; [|split; [|split]]].
  - intros s He Hp Hrej shown. subst shown.
    rewrite (onButtonClick_rejected env w s st body He Hp Hrej).
    unfold or_else.
    destruct (truthy (get_prop body "detail"));
      destruct (truthy (get_prop body "message"));
      repeat split; intros; congruence.
  - intros s t Hc Hdate Hrej shown. subst shown.
    rewrite (handleSubmit_rejected env w s t st body Hc Hdate (Hrej _)).
    unfold or_else. cbn.
    destruct (truthy (get_prop body "error"));
      destruct (truthy (get_prop body "message"));
      repeat split; intros; congruence.
  - intros s e Hrej. by apply fetchPatients_rejected with (e := e).
  - intros s e Hrej. by apply loadData_rejected with (e := e).
  - intros m k Hk. by rewrite get_prop_field, Hk.
Qed.

Lemma failure_messages_witness :
  Form.blank (Login.email login_form) = false
  /\ Form.blank (Login.password login_form) = false
  /\ truthy (get_prop detail_body "detail") = true
  /\ Login.loginError
       (fst (snd (Login.onButtonClick (rejecting_env 401 detail_body)
                    (login_form, fresh_world))))
     = get_prop detail_body "detail"
  /\ truthy (get_prop bare_body "detail") = false
  /\ truthy (get_prop bare_body "message") = false
  /\ Login.loginError
       (fst (snd (Login.onButtonClick (rejecting_env 400 bare_body)
                    (login_form, fresh_world))))
     = JStr "Invalid credentials. Please try again.".
Proof.
  split; [reflexivity|]. split; [reflexivity|]. split; [reflexivity|].
  split.
  - apply (proj1 (failure_messages (rejecting_env 401 detail_body)
                    fresh_world 401 detail_body) login_form);
      reflexivity.
  - split; [reflexivity|]. split; [reflexivity|].
    apply (proj1 (failure_messages (rejecting_env 400 bare_body)
                    fresh_world 400 bare_body) login_form);
      reflexivity.
Defined.

(** ** The booking scenario *)

(** The scenario where the UTC day and the chosen day agree.  The form
    holds patient 5, doctor 2, a [Date] whose instant falls on 2024-12-15
    in UTC (the day [toISOString] reports), the time "10:00" and an empty
    reason.  Submitting it transmits exactly one request, a POST to
    /patients/appointments whose body is
    {patient: 5, doctor: 2, date: "2024-12-15", time: "10:00",
     reason: undefined, status: false}; when the backend accepts it, the
    handler navigates to /appointments. *)
Theorem booking_scenario (env : Env) (w : World) (s : BookAppointment.State)
    (t : Z) :
  BookAppointment.selectedPatient s = Some 5 ->
  BookAppointment.selectedDoctor s = Some 2 ->
  BookAppointment.date s = Some (JSDate.mkDate (Some t)) ->
  JSDate.YearFromTime t = 2024 ->
  JSDate.MonthFromTime t = 11 ->
  JSDate.DateFromTime t = 15 ->
  BookAppointment.timeStr s = "10:00" ->
  BookAppointment.reason s = "" ->
  exists sent,
    network (snd (snd (BookAppointment.handleSubmit env (s, w))))
      = (network w ++ [sent])%list
    /\ method sent = POST
    /\ url sent = "/patients/appointments"
    /\ data sent
       = AppointmentBody
           {| patient := Some 5; doctor := Some 2; date := "2024-12-15";
              time := "10:00"; reason := None; status := false |}
    /\ (forall a, appointments_service env sent = Normal a ->
          navigations (snd (snd (BookAppointment.handleSubmit env (s, w))))
          = (navigations w ++ ["/appointments"])%list).
Proof.
  intros Hp Hd Hdate Hy Hm Hday Htime Hreason.
  assert (Hc : Form.complete s = true).
  { unfold Form.complete. by rewrite Hp, Hd, Hdate, Htime. }
  assert (Htext : JSDate.date_text t = "2024-12-15").
  { unfold JSDate.date_text. by rewrite Hy, Hm, Hday. }
  exists (Form.creation_request env w s t).
  destruct (transmitted_shape w
              (make_request env POST endpoints.patients_appointments
                 (AppointmentBody (Form.payload s t))))
    as (Hmeth & Hurl & Hdata & _).
  split; [by apply handleSubmit_transmits|].
  split; [exact Hmeth|]. split; [exact Hurl|]. split.
  - unfold Form.creation_request. rewrite Hdata. cbn [data make_request].
    unfold Form.payload. by rewrite Hp, Hd, Htext, Htime, Hreason.
  - intros a Hok. by rewrite (handleSubmit_booked env w s t a Hc Hdate Hok).
Qed.

(** The day that is sent is the UTC day of the instant.  A [Date] that
    stands for midnight of 15 December in a browser one hour ahead of UTC
    falls on 14 December in UTC, and is sent as such. *)
Lemma local_midnight_is_sent_as_utc_day :
  JSDate.date_text (JSDate.LocalTime one_hour_ahead local_midnight_december_15)
    = "2024-12-15"
  /\ BookAppointment.formatDate
       (Some (JSDate.mkDate (Some local_midnight_december_15))) fresh_world
     = (Normal "2024-12-14", fresh_world).
Proof. split; [reflexivity|]. by rewrite formatDate_valid. Qed.

Lemma booking_scenario_witness :
  JSDate.YearFromTime mid_december = 2024
  /\ JSDate.MonthFromTime mid_december = 11
  /\ JSDate.DateFromTime mid_december = 15
  /\ exists sent,
       network (snd (snd (BookAppointment.handleSubmit obliging_env
                  (booking_form (JSDate.mkDate (Some mid_december)) "10:00",
                   fresh_world))))
         = ([] ++ [sent])%list
       /\ method sent = POST
       /\ url sent = "/patients/appointments"
       /\ data sent
          = AppointmentBody
              {| patient := Some 5; doctor := Some 2; date := "2024-12-15";
                 time := "10:00"; reason := None; status := false |}
       /\ (forall a, appointments_service obliging_env sent = Normal a ->
             navigations (snd (snd (BookAppointment.handleSubmit obliging_env
                  (booking_form (JSDate.mkDate (Some mid_december)) "10:00",
                   fresh_world))))
             = ([] ++ ["/appointments"])%list).
Proof.
  split; [reflexivity|]. split; [reflexivity|]. split; [reflexivity|].
  apply (booking_scenario obliging_env fresh_world
           (booking_form (JSDate.mkDate (Some mid_december)) "10:00")
           mid_december); reflexivity.
Defined.

(** ** Calendar arithmetic *)

Lemma DayFromYear_step (y : Z) :
  JSDate.DayFromYear (y + 1) = JSDate.DayFromYear y + JSDate.DaysInYear y.
Proof.
  unfold JSDate.DayFromYear, JSDate.DaysInYear.
  destruct (Z.eqb_spec (y mod 4) 0); cbn [negb];
    [destruct (Z.eqb_spec (y mod 100) 0); cbn [negb];
       [destruct (Z.eqb_spec (y mod 400) 0); cbn [negb]|]|];
    Z.div_mod_to_equations; lia.
Qed.

Lemma DayFromYear_mono (y1 y2 : Z) :
  y1 <= y2 -> JSDate.DayFromYear y1 <= JSDate.DayFromYear y2.
Proof. unfold JSDate.DayFromYear. intros. Z.div_mod_to_equations. lia. Qed.

(** [YearFromDay d] is a year whose first day is not after [d] and whose
    successor starts after [d] ... *)
Lemma YearFromDay_spec (d : Z) :
  JSDate.DayFromYear (JSDate.YearFromDay d) <= d
  < JSDate.DayFromYear (JSDate.YearFromDay d + 1).
Proof.
  unfold JSDate.YearFromDay.
  destruct (Z.ltb_spec d (JSDate.DayFromYear (1970 + 400 * d / 146097)));
    [|destruct (Z.leb_spec
                  (JSDate.DayFromYear (1970 + 400 * d / 146097 + 1)) d)];
    unfold JSDate.DayFromYear in *; Z.div_mod_to_equations; lia.
Qed.

(** ... and it is the only such year: the largest [y] with
    [DayFromYear y <= d], as ECMA-262 defines [YearFromTime]. *)
Lemma YearFromDay_unique (d y : Z) :
  JSDate.DayFromYear y <= d < JSDate.DayFromYear (y + 1) ->
  JSDate.YearFromDay d = y.
Proof.
  intros Hy. pose proof (YearFromDay_spec d) as HY.
  destruct (Z.lt_trichotomy (JSDate.YearFromDay d) y) as [Hlt|[Heq|Hgt]];
    [|exact Heq|].
  - pose proof (DayFromYear_mono (JSDate.YearFromDay d + 1) y). lia.
  - pose proof (DayFromYear_mono (y + 1) (JSDate.YearFromDay d)). lia.
Qed.

Lemma InLeapYear_cases (t : Z) :
  (JSDate.InLeapYear t = 0
   /\ JSDate.DaysInYear (JSDate.YearFromTime t) = 365)
  \/ (JSDate.InLeapYear t = 1
      /\ JSDate.DaysInYear (JSDate.YearFromTime t) = 366).
Proof.
  unfold JSDate.InLeapYear.
  destruct (Z.eqb_spec (JSDate.DaysInYear (JSDate.YearFromTime t)) 366)
    as [->|Hne]; [by right|left]. split; [done|].
  revert Hne. unfold JSDate.DaysInYear.
  repeat match goal with |- context [negb (?a =? ?b)] =>
    destruct (Z.eqb_spec a b); cbn [negb] end; congruence.
Qed.

Lemma DayWithinYear_range (t : Z) :
  0 <= JSDate.DayWithinYear t < 365 + JSDate.InLeapYear t.
Proof.
  unfold JSDate.DayWithinYear, JSDate.YearFromTime.
  pose proof (YearFromDay_spec (JSDate.Day t)) as H.
  rewrite DayFromYear_step in H.
  destruct (InLeapYear_cases t) as [[-> Hd]|[-> Hd]];
    unfold JSDate.YearFromTime in Hd; lia.
Qed.

Ltac month_cases :=
  repeat match goal with
         | |- context [Z.ltb ?a ?b] => destruct (Z.ltb_spec a b)
         end.

Lemma MonthFromTime_range (t : Z) : 0 <= JSDate.MonthFromTime t <= 11.
Proof. unfold JSDate.MonthFromTime. cbv zeta. month_cases; lia. Qed.

Lemma DateFromTime_range (t : Z) : 1 <= JSDate.DateFromTime t <= 31.
Proof.
  pose proof (DayWithinYear_range t) as Hr.
  unfold JSDate.DateFromTime, JSDate.MonthFromTime. cbv zeta.
  destruct (InLeapYear_cases t) as [[Hl _]|[Hl _]]; rewrite Hl in *;
    month_cases; lia.
Qed.

(** The three calendar fields determine the day: [MakeDay] undoes them. *)
Lemma MakeDay_fields (t : Z) :
  JSDate.MakeDay (JSDate.YearFromTime t) (JSDate.MonthFromTime t)
    (JSDate.DateFromTime t) = JSDate.Day t.
Proof.
  pose proof (DayWithinYear_range t) as Hr.
  unfold JSDate.MakeDay.
  replace (if JSDate.DaysInYear (JSDate.YearFromTime t) =? 366
           then 1 else 0) with (JSDate.InLeapYear t) by reflexivity.
  unfold JSDate.DateFromTime, JSDate.MonthFromTime. cbv zeta.
  unfold JSDate.DayWithinYear in *.
  destruct (InLeapYear_cases t) as [[Hl _]|[Hl _]]; rewrite Hl in *;
    month_cases; cbn [JSDate.days_before_month]; lia.
Qed.

Lemma date_text_shape (t : Z) :
  0 <= JSDate.YearFromTime t <= 9999 ->
  JSDate.date_text t
  = Text.iso_date (JSDate.YearFromTime t) (JSDate.MonthFromTime t + 1)
      (JSDate.DateFromTime t).
Proof.
  intros [Hlo Hhi]. unfold JSDate.date_text, JSDate.year_text, Text.iso_date.
  apply Z.leb_le in Hlo, Hhi. by rewrite Hlo, Hhi.
Qed.

Lemma iso_date_chars (y m d : Z) :
  Text.iso_date y m d
  = String (JSDate.digit (y / 1000)) (String (JSDate.digit (y / 100))
      (String (JSDate.digit (y / 10)) (String (JSDate.digit y)
      (String "-" (String (JSDate.digit (m / 10)) (String (JSDate.digit m)
      (String "-" (String (JSDate.digit (d / 10)) (String (JSDate.digit d)
      ""))))))))).
Proof. reflexivity. Qed.

Lemma iso_date_is_YYYY_MM_DD (y m d : Z) :
  Text.is_YYYY_MM_DD (Text.iso_date y m d) = true.
Proof.
  rewrite iso_date_chars. cbn [Text.is_YYYY_MM_DD].
  by rewrite !digit_is_digit.
Qed.

(** A date-only text reads as midnight UTC of the day it names. *)
Lemma parse_iso_date (y m d : Z) :
  0 <= y <= 9999 -> 1 <= m <= 12 -> 1 <= d <= 31 ->
  JSDate.parse (Text.iso_date y m d)
  = Some (JSDate.MakeDay y (m - 1) d * JSDate.msPerDay).
Proof.
  intros Hy Hm Hd. rewrite iso_date_chars.
  cbn [JSDate.parse]. rewrite !digit_value_digit.
  cbn [mbind option_bind].
  replace (1000 * ((y / 1000) mod 10) + 100 * ((y / 100) mod 10)
           + 10 * ((y / 10) mod 10) + y mod 10) with y
    by (Z.div_mod_to_equations; lia).
  replace (10 * ((m / 10) mod 10) + m mod 10) with m
    by (Z.div_mod_to_equations; lia).
  replace (10 * ((d / 10) mod 10) + d mod 10) with d
    by (Z.div_mod_to_equations; lia).
  cbv zeta. cbn [Ascii.eqb Bool.eqb andb].
  destruct (Z.leb_spec 1 m); [|lia].
  destruct (Z.leb_spec m 12); [|lia].
  destruct (Z.leb_spec 1 d); [|lia].
  destruct (Z.leb_spec d 31); [|lia].
  cbn [andb]. unfold JSDate.MakeDate. f_equal. lia.
Qed.

(** For a year written with four digits, the date part of the ISO text
    has the shape YYYY-MM-DD ... *)
Lemma date_text_is_YYYY_MM_DD (t : Z) :
  0 <= JSDate.YearFromTime t <= 9999 ->
  Text.is_YYYY_MM_DD (JSDate.date_text t) = true.
Proof.
  intros Hy. rewrite date_text_shape by done. apply iso_date_is_YYYY_MM_DD.
Qed.

(** ... and reads back as midnight UTC of the day of [t]: the text names
    the UTC calendar day of the instant. *)
Lemma parse_date_text (t : Z) :
  0 <= JSDate.YearFromTime t <= 9999 ->
  JSDate.parse (JSDate.date_text t) = Some (JSDate.Day t * JSDate.msPerDay).
Proof.
  intros Hy. rewrite date_text_shape by done.
  pose proof (MonthFromTime_range t) as Hm.
  pose proof (DateFromTime_range t) as Hd.
  rewrite parse_iso_date by lia.
  replace (JSDate.MonthFromTime t + 1 - 1) with (JSDate.MonthFromTime t)
    by lia.
  by rewrite MakeDay_fields.
Qed.

(** ** Validation of the booking form *)

(** Whatever happens after validation, a complete form ends up settled:
    not busy, field messages cleared. *)
Lemma handleSubmit_settles (env : Env) (w : World)
    (s : BookAppointment.State) :
  Form.complete s = true ->
  exists r banner w',
    BookAppointment.handleSubmit env (s, w) = (r, (Form.settled s banner, w')).
Proof.
  intros Hc. booking_complete Hc.
  destruct (BookAppointment.date s) as [[[t|]]|] eqn:Hdate;
    [| |discriminate Hdt].
  - rewrite formatDate_valid, apiClient_run. cbn.
    destruct (appointments_service env _) as [a|e]; cbn.
    + eexists _, _, _. unfold Form.settled. by rewrite Hdate.
    + unfold response_data_field. unfold_eff.
      destruct (member e "response") as [resp|e']; cbn.
      * destruct (truthy _); cbn; eexists _, _, _; unfold Form.settled;
          by rewrite Hdate.
      * eexists _, _, _. unfold Form.settled. by rewrite Hdate.
  - rewrite formatDate_invalid. cbn.
    eexists _, _, _. unfold Form.settled. by rewrite Hdate.
Qed.

Lemma handleSubmit_messages (env : Env) (w : World)
    (s : BookAppointment.State) :
  let final := fst (snd (BookAppointment.handleSubmit env (s, w))) in
  BookAppointment.patientError final
    = BookAppointment.patientError (Form.checked s)
  /\ BookAppointment.doctorError final
     = BookAppointment.doctorError (Form.checked s)
  /\ BookAppointment.dateError final
     = BookAppointment.dateError (Form.checked s)
  /\ BookAppointment.timeError final
     = BookAppointment.timeError (Form.checked s).
Proof.
  destruct (Form.complete s) eqn:Hc.
  - destruct (handleSubmit_settles env w s Hc) as (r & banner & w' & ->).
    destruct (complete_fields s Hc) as (Hp & Hd & Hdt & Ht).
    cbn. by rewrite Hp, Hd, Hdt, Ht.
  - by rewrite handleSubmit_incomplete.
Qed.

(** C4 fails as stated: with all four cells filled in and the date cell
    holding an invalid [Date] (an object, so not [null]), the handler sets
    no field-level message, and it does not invoke the creation either:
    [toISOString] throws, and the page shows its generic failure. *)
Lemma invalid_date_neither_flagged_nor_sent :
  let s := booking_form (JSDate.mkDate None) "10:00" in
  let final := snd (BookAppointment.handleSubmit obliging_env (s, fresh_world)) in
  BookAppointment.selectedPatient s = Some 5
  /\ BookAppointment.selectedDoctor s = Some 2
  /\ is_Some (BookAppointment.date s)
  /\ BookAppointment.timeStr s = "10:00"
  /\ BookAppointment.patientError (fst final) = ""
  /\ BookAppointment.doctorError (fst final) = ""
  /\ BookAppointment.dateError (fst final) = ""
  /\ BookAppointment.timeError (fst final) = ""
  /\ network (snd final) = []
  /\ BookAppointment.error (fst final)
     = JStr "Failed to book appointment. Please try again.".
Proof.
  cbv zeta. rewrite handleSubmit_invalid_date by reflexivity.
  repeat split; try reflexivity. by eexists.
Qed.

(** What else the handler's tests count as missing: a time of white space
    only, and the id 0. *)
Lemma blank_time_is_flagged :
  let s := booking_form (JSDate.mkDate (Some mid_december)) "  " in
  BookAppointment.handleSubmit obliging_env (s, fresh_world)
  = (Normal tt, (Form.checked s, fresh_world))
  /\ BookAppointment.timeError (Form.checked s) = "Time is required".
Proof. cbv zeta. by rewrite handleSubmit_incomplete. Qed.

Lemma zero_id_is_flagged :
  let s := BookAppointment.mkState (Some 0) (Some 2)
             (Some (JSDate.mkDate (Some mid_december))) "10:00" ""
             [] [] false false (JStr "") "" "" "" "" in
  BookAppointment.handleSubmit obliging_env (s, fresh_world)
  = (Normal tt, (Form.checked s, fresh_world))
  /\ BookAppointment.patientError (Form.checked s) = "Patient is required".
Proof. cbv zeta. by rewrite handleSubmit_incomplete. Qed.

(** The no-break space is white space to [trim] as well: a time that
    holds nothing else is flagged, and nothing is sent. *)
Lemma no_break_space_time_is_flagged :
  let s := booking_form (JSDate.mkDate (Some mid_december))
             (String "160" (String " " (String "160" ""))) in
  BookAppointment.handleSubmit obliging_env (s, fresh_world)
  = (Normal tt, (Form.checked s, fresh_world))
  /\ BookAppointment.timeError (Form.checked s) = "Time is required".
Proof. cbv zeta. by rewrite handleSubmit_incomplete. Qed.

(** Beyond the year 9999 the ISO text uses the expanded-year form, and so
    does the date that is sent. *)
Lemma expanded_year_is_sent :
  JSDate.date_text 253402300800000 = "+010000-01-01"
  /\ Text.is_YYYY_MM_DD (JSDate.date_text 253402300800000) = false.
Proof. split; reflexivity. Qed.

(** C4, amended.  A required cell counts as missing when the handler's
    test finds it falsy: patient or doctor [null] (or 0), date [null],
    time empty or white space only ([Form.blank]: every character is one
    of those that [trim] strips, the no-break space among them).  Then:
    - each of the four field messages is set when its cell is missing and
      cleared when it is not;
    - when a cell is missing the handler does nothing else: the form is
      otherwise unchanged and the browser is untouched (no network call);
    - when no cell is missing and the date cell holds a valid [Date] with
      time value [t], exactly one request is transmitted, the creation
      call, with [status] false, patient, doctor and time as entered, and
      [date] the date part of the ISO text of [t]; for a year from 0 to
      9999 that text has the shape YYYY-MM-DD and names the UTC day of
      [t]. *)
Theorem booking_validation (env : Env) (w : World)
    (s : BookAppointment.State) :
  let final := snd (BookAppointment.handleSubmit env (s, w)) in
  BookAppointment.patientError (fst final)
    = Form.required_message
        (Form.missing_id (BookAppointment.selectedPatient s))
        "Patient is required"
  /\ BookAppointment.doctorError (fst final)
     = Form.required_message
         (Form.missing_id (BookAppointment.selectedDoctor s))
         "Doctor is required"
  /\ BookAppointment.dateError (fst final)
     = Form.required_message (Form.missing_date (BookAppointment.date s))
         "Date is required"
  /\ BookAppointment.timeError (fst final)
     = Form.required_message (Form.blank (BookAppointment.timeStr s))
         "Time is required"
  /\ (Form.complete s = false -> final = (Form.checked s, w))
  /\ (Form.complete s = true ->
      forall t, BookAppointment.date s = Some (JSDate.mkDate (Some t)) ->
      exists sent body,
        network (snd final) = (network w ++ [sent])%list
        /\ method sent = POST
        /\ url sent = "/patients/appointments"
        /\ data sent = AppointmentBody body
        /\ status body = false
        /\ patient body = BookAppointment.selectedPatient s
        /\ doctor body = BookAppointment.selectedDoctor s
        /\ time body = BookAppointment.timeStr s
        /\ date body = JSDate.date_text t
        /\ (0 <= JSDate.YearFromTime t <= 9999 ->
            Text.is_YYYY_MM_DD (date body) = true
            /\ JSDate.parse (date body)
               = Some (JSDate.Day t * JSDate.msPerDay))).
Proof.
  cbv zeta.
  destruct (handleSubmit_messages env w s) as (H1 & H2 & H3 & H4).
  do 4 (split; [assumption|]). split.
  - intros Hc. by rewrite handleSubmit_incomplete.
  - intros Hc t Hdate.
    exists (Form.creation_request env w s t), (Form.payload s t).
    destruct (transmitted_shape w
                (make_request env POST endpoints.patients_appointments
                   (AppointmentBody (Form.payload s t))))
      as (Hmeth & Hurl & Hdata & _).
    split; [by apply handleSubmit_transmits|].
    do 3 (split; [assumption|]). do 5 (split; [reflexivity|]).
    intros Hy. cbn [date Form.payload]. split.
    + by apply date_text_is_YYYY_MM_DD.
    + by apply parse_date_text.
Qed.

Lemma booking_validation_witness :
  let s := booking_form (JSDate.mkDate (Some mid_december)) "10:00" in
  Form.complete s = true
  /\ 0 <= JSDate.YearFromTime mid_december <= 9999
  /\ exists sent body,
       network (snd (snd (BookAppointment.handleSubmit obliging_env
                            (s, fresh_world)))) = ([] ++ [sent])%list
       /\ method sent = POST
       /\ url sent = "/patients/appointments"
       /\ data sent = AppointmentBody body
       /\ status body = false
       /\ patient body = Some 5
       /\ doctor body = Some 2
       /\ time body = "10:00"
       /\ date body = JSDate.date_text mid_december
       /\ (0 <= JSDate.YearFromTime mid_december <= 9999 ->
           Text.is_YYYY_MM_DD (date body) = true
           /\ JSDate.parse (date body)
              = Some (JSDate.Day mid_december * JSDate.msPerDay)).
Proof.
  cbv zeta. split; [reflexivity|]. split; [by vm_compute|].
  apply (proj2 (proj2 (proj2 (proj2 (proj2
           (booking_validation obliging_env fresh_world
              (booking_form (JSDate.mkDate (Some mid_december)) "10:00")))))));
    reflexivity.
Defined.

(** ** Age from a birth date *)

Lemma fields_of_day (t1 t2 : Z) :
  JSDate.Day t1 = JSDate.Day t2 ->
  JSDate.YearFromTime t1 = JSDate.YearFromTime t2
  /\ JSDate.MonthFromTime t1 = JSDate.MonthFromTime t2
  /\ JSDate.DateFromTime t1 = JSDate.DateFromTime t2.
Proof.
  intros H.
  unfold JSDate.DateFromTime, JSDate.MonthFromTime, JSDate.DayWithinYear,
    JSDate.InLeapYear, JSDate.YearFromTime.
  by rewrite H.
Qed.

(** A local time that is ahead of UTC by less than a day leaves a UTC
    midnight on its calendar day. *)
Lemma Day_of_local_midnight (tza : Z -> Z) (b : Z) :
  b mod JSDate.msPerDay = 0 ->
  0 <= tza b < JSDate.msPerDay ->
  JSDate.Day (JSDate.LocalTime tza b) = JSDate.Day b.
Proof.
  unfold JSDate.Day, JSDate.LocalTime, JSDate.msPerDay. intros Hb Hoff.
  Z.div_mod_to_equations. lia.
Qed.

Lemma digit_value_range (c : ascii) (v : Z) :
  JSDate.digit_value c = Some v -> 0 <= v <= 9.
Proof.
  unfold JSDate.digit_value. cbv zeta.
  destruct (Z.leb_spec 48 (Z.of_nat (nat_of_ascii c))); [|discriminate].
  destruct (Z.leb_spec (Z.of_nat (nat_of_ascii c)) 57); [|discriminate].
  cbn. intros [= <-]. lia.
Qed.

Lemma MakeDay_bounds (y m d : Z) :
  0 <= y <= 9999 -> 0 <= m <= 11 -> 1 <= d <= 31 ->
  -800000 <= JSDate.MakeDay y m d <= 3000000.
Proof.
  intros Hy Hm Hd. unfold JSDate.MakeDay.
  pose proof (DayFromYear_mono 0 y ltac:(lia)) as Hlo.
  pose proof (DayFromYear_mono y 9999 ltac:(lia)) as Hhi.
  change (JSDate.DayFromYear 0) with (-719528) in Hlo.
  change (JSDate.DayFromYear 9999) with 2932532 in Hhi.
  assert (0 <= JSDate.days_before_month m
                 (if JSDate.DaysInYear y =? 366 then 1 else 0) <= 335).
  { assert (Hcases : m = 0 \/ m = 1 \/ m = 2 \/ m = 3 \/ m = 4 \/ m = 5
                      \/ m = 6 \/ m = 7 \/ m = 8 \/ m = 9 \/ m = 10
                      \/ m = 11) by lia.
    destruct (JSDate.DaysInYear y =? 366);
      repeat (destruct Hcases as [->|Hcases]; [cbn; lia|]);
      subst m; cbn; lia. }
  lia.
Qed.

(** A date-only text parses to a midnight UTC within the range of time
    values. *)
Lemma parse_midnight (text : string) (b : Z) :
  JSDate.parse text = Some b ->
  b mod JSDate.msPerDay = 0 /\ Z.abs b <= 8640000000000000.
Proof.
  unfold JSDate.parse.
  destruct text as [|y1 [|y2 [|y3 [|y4 [|s1 [|m1 [|m2 [|s2 [|d1 [|d2 [|]]]]]]]]]]];
    try discriminate.
  destruct (JSDate.digit_value y1) as [a|] eqn:Ha; [|discriminate].
  destruct (JSDate.digit_value y2) as [b0|] eqn:Hb; [|discriminate].
  destruct (JSDate.digit_value y3) as [c|] eqn:Hc; [|discriminate].
  destruct (JSDate.digit_value y4) as [d|] eqn:Hd; [|discriminate].
  destruct (JSDate.digit_value m1) as [e|] eqn:He; [|discriminate].
  destruct (JSDate.digit_value m2) as [f|] eqn:Hf; [|discriminate].
  destruct (JSDate.digit_value d1) as [g|] eqn:Hg; [|discriminate].
  destruct (JSDate.digit_value d2) as [h|] eqn:Hh; [|discriminate].
  cbn [mbind option_bind]. cbv zeta.
  apply digit_value_range in Ha, Hb, Hc, Hd, He, Hf, Hg, Hh.
  destruct (_ && _) eqn:Hok; [|discriminate].
  rewrite !andb_true_iff, !Z.leb_le in Hok.
  destruct Hok as ((((_ & Hm1) & Hm2) & Hd1) & Hd2).
  intros [= <-]. unfold JSDate.MakeDate.
  pose proof (MakeDay_bounds (1000 * a + 100 * b0 + 10 * c + d)
                (10 * e + f - 1) (10 * g + h)
                ltac:(lia) ltac:(lia) ltac:(lia)) as Hbound.
  unfold JSDate.msPerDay. split; [|lia].
  rewrite Z.add_0_r. apply Z.mod_mul. lia.
Qed.

Lemma TimeClip_in_range (t : Z) :
  Z.abs t <= 8640000000000000 -> JSDate.TimeClip t = Some t.
Proof.
  intros H. unfold JSDate.TimeClip. by destruct (Z.leb_spec (Z.abs t) 8640000000000000); [|lia].
Qed.

(** The other direction: the calendar fields of the day that [MakeDay]
    builds from a real calendar date are that date. *)
Lemma fields_of_MakeDay (y m d : Z) :
  0 <= m <= 11 -> 1 <= d <= Text.DaysInMonth y m ->
  let t := JSDate.MakeDay y m d * JSDate.msPerDay in
  JSDate.YearFromTime t = y
  /\ JSDate.MonthFromTime t = m
  /\ JSDate.DateFromTime t = d.
Proof.
  intros Hm Hd t.
  assert (HDay : JSDate.Day t = JSDate.MakeDay y m d).
  { unfold t, JSDate.Day. apply Z.div_mul. unfold JSDate.msPerDay. lia. }
  assert (Hcases : m = 0 \/ m = 1 \/ m = 2 \/ m = 3 \/ m = 4 \/ m = 5
                   \/ m = 6 \/ m = 7 \/ m = 8 \/ m = 9 \/ m = 10
                   \/ m = 11) by lia.
  assert (Hleap : (JSDate.DaysInYear y = 365
                   /\ (JSDate.DaysInYear y =? 366) = false)
                  \/ (JSDate.DaysInYear y = 366
                      /\ (JSDate.DaysInYear y =? 366) = true)).
  { unfold JSDate.DaysInYear.
    repeat match goal with |- context [negb (?a =? ?b)] =>
      destruct (Z.eqb_spec a b); cbn [negb] end; auto. }
  assert (HY : JSDate.YearFromTime t = y).
  { unfold JSDate.YearFromTime. rewrite HDay. apply YearFromDay_unique.
    rewrite DayFromYear_step. unfold JSDate.MakeDay.
    unfold Text.DaysInMonth in Hd.
    destruct Hleap as [[Hl Hb]|[Hl Hb]]; rewrite Hl, Hb in *;
      repeat (destruct Hcases as [->|Hcases];
              [cbn [JSDate.days_before_month] in *; lia|]);
      subst m; cbn [JSDate.days_before_month] in *; lia. }
  split; [exact HY|].
  unfold JSDate.DateFromTime, JSDate.MonthFromTime, JSDate.DayWithinYear,
    JSDate.InLeapYear.
  rewrite HY, HDay. unfold JSDate.MakeDay. cbv zeta.
  unfold Text.DaysInMonth in Hd.
  destruct Hleap as [[Hl Hb]|[Hl Hb]]; rewrite Hb in *;
    repeat (destruct Hcases as [->|Hcases];
            [cbn [JSDate.days_before_month] in *; month_cases;
             try lia; split; lia|]);
    subst m; cbn [JSDate.days_before_month] in *; month_cases;
    try lia; split; lia.
Qed.

(** C2 fails as stated: on a date later than 2024-06-15 the function does
    not go on returning 34; one year on, it returns 35. *)
Lemma calculateAge_a_year_later :
  JSDate.date_text (JSDate.LocalTime utc june_15_2025) = "2025-06-15"
  /\ Patients.calculateAge utc june_15_2025 "1990-06-15" = Some 35.
Proof. split; reflexivity. Qed.

(** Where local time is behind UTC the getters see the parsed birth date
    a day early: at noon of 14 June 2024, four hours behind UTC, the
    function already returns 34. *)
Lemma calculateAge_behind_utc :
  JSDate.date_text (JSDate.LocalTime four_hours_behind june_14_2024)
    = "2024-06-14"
  /\ JSDate.getDate four_hours_behind (JSDate.of_string "1990-06-15")
     = Some 14
  /\ Patients.calculateAge four_hours_behind june_14_2024 "1990-06-15"
     = Some 34.
Proof. repeat split; reflexivity. Qed.

Lemma DaysInMonth_le_31 (y m : Z) : Text.DaysInMonth y m <= 31.
Proof.
  unfold Text.DaysInMonth.
  repeat match goal with
         | |- context [match ?x with _ => _ end] => destruct x
         end; lia.
Qed.

(** The function on any date-only birth text and any local-time offset:
    a difference of years, less one when the local (month, day) of today
    comes before the local (month, day) of the parsed birth instant. *)
Lemma calculateAge_local_fields (tza : Z -> Z) (now b : Z)
    (dateOfBirth : string) :
  JSDate.parse dateOfBirth = Some b ->
  Z.abs now <= 8640000000000000 ->
  Patients.calculateAge tza now dateOfBirth
  = Some (JSDate.YearFromTime (JSDate.LocalTime tza now)
          - JSDate.YearFromTime (JSDate.LocalTime tza b)
          - (if (JSDate.MonthFromTime (JSDate.LocalTime tza now)
                 <? JSDate.MonthFromTime (JSDate.LocalTime tza b))
                || ((JSDate.MonthFromTime (JSDate.LocalTime tza now)
                     =? JSDate.MonthFromTime (JSDate.LocalTime tza b))
                    && (JSDate.DateFromTime (JSDate.LocalTime tza now)
                        <? JSDate.DateFromTime (JSDate.LocalTime tza b)))
             then 1 else 0)).
Proof.
  intros Hparse Hnow. destruct (parse_midnight _ _ Hparse) as [_ Hb].
  unfold Patients.calculateAge, JSDate.of_string, JSDate.of_clock,
    JSDate.getFullYear, JSDate.getMonth, JSDate.getDate.
  rewrite Hparse. cbn [mbind option_bind JSDate.time_value].
  rewrite !TimeClip_in_range by assumption.
  cbn [mbind option_bind JSDate.time_value num_sub num_lt num_eq].
  set (M := JSDate.MonthFromTime (JSDate.LocalTime tza now)).
  set (Mb := JSDate.MonthFromTime (JSDate.LocalTime tza b)).
  destruct (Z.ltb_spec (M - Mb) 0); destruct (Z.ltb_spec M Mb); try lia;
    cbn [orb]; [f_equal; lia|].
  destruct (Z.eqb_spec (M - Mb) 0); destruct (Z.eqb_spec M Mb); try lia;
    cbn [andb]; [|f_equal; lia].
  destruct (_ <? _); f_equal; lia.
Qed.

(** C2, amended.  In a browser whose local time is UTC or ahead of it,
    for the birth date of the calendar day [y]-[m]-[d] given as
    [YYYY-MM-DD], [calculateAge] returns the current local year minus
    [y], less one exactly when the current local (month, day) comes before
    ([m], [d]).  For the birth date 1990-06-15 that is 33 on the system
    date 2024-06-14, and 34 on every system date from 2024-06-15 to
    2025-06-14. *)
Theorem calculateAge_whole_years (tza : Z -> Z) (now : Z) :
  Z.abs now <= 8640000000000000 ->
  let Y := JSDate.YearFromTime (JSDate.LocalTime tza now) in
  let M := JSDate.MonthFromTime (JSDate.LocalTime tza now) in
  let D := JSDate.DateFromTime (JSDate.LocalTime tza now) in
  (forall y m d,
     0 <= y <= 9999 -> 1 <= m <= 12 -> 1 <= d <= Text.DaysInMonth y (m - 1) ->
     0 <= tza (JSDate.MakeDay y (m - 1) d * JSDate.msPerDay)
       < JSDate.msPerDay ->
     Patients.calculateAge tza now (Text.iso_date y m d)
     = Some (Y - y
             - (if (M + 1 <? m) || ((M + 1 =? m) && (D <? d))
                then 1 else 0)))
  /\ (0 <= tza 645408000000 < JSDate.msPerDay ->
      (Y = 2024 -> M = 5 -> D = 14 ->
       Patients.calculateAge tza now "1990-06-15" = Some 33)
      /\ (Y = 2024 -> (M = 5 /\ 15 <= D) \/ 5 < M ->
          Patients.calculateAge tza now "1990-06-15" = Some 34)
      /\ (Y = 2025 -> M < 5 \/ (M = 5 /\ D < 15) ->
          Patients.calculateAge tza now "1990-06-15" = Some 34)).
Proof.
  intros Hnow Y M D.
  assert (Hlaw : forall y m d,
     0 <= y <= 9999 -> 1 <= m <= 12 -> 1 <= d <= Text.DaysInMonth y (m - 1) ->
     0 <= tza (JSDate.MakeDay y (m - 1) d * JSDate.msPerDay)
       < JSDate.msPerDay ->
     Patients.calculateAge tza now (Text.iso_date y m d)
     = Some (Y - y
             - (if (M + 1 <? m) || ((M + 1 =? m) && (D <? d))
                then 1 else 0))).
  { intros y m d Hy Hm Hd Hoff.
    assert (Hd31 : 1 <= d <= 31).
    { pose proof (DaysInMonth_le_31 y (m - 1)). lia. }
    pose proof (parse_iso_date y m d Hy Hm Hd31) as Hparse.
    set (b := JSDate.MakeDay y (m - 1) d * JSDate.msPerDay) in *.
    destruct (parse_midnight _ _ Hparse) as [Hmid _].
    destruct (fields_of_day _ _ (Day_of_local_midnight tza b Hmid Hoff))
      as (HY & HM & HD).
    destruct (fields_of_MakeDay y (m - 1) d ltac:(lia) Hd) as (Hy' & Hm' & Hd').
    fold b in Hy', Hm', Hd'.
    rewrite (calculateAge_local_fields tza now b _ Hparse Hnow).
    rewrite HY, HM, HD, Hy', Hm', Hd'. fold Y M D.
    destruct (Z.ltb_spec M (m - 1)); destruct (Z.ltb_spec (M + 1) m);
      try lia; cbn [orb]; [reflexivity|].
    destruct (Z.eqb_spec M (m - 1)); destruct (Z.eqb_spec (M + 1) m);
      try lia; reflexivity. }
  split; [exact Hlaw|].
  intros Hoff.
  specialize (Hlaw 1990 6 15 ltac:(lia) ltac:(lia)
                ltac:(by vm_compute) Hoff).
  change (Text.iso_date 1990 6 15) with "1990-06-15" in Hlaw.
  rewrite Hlaw. split; [|split].
  - intros -> -> ->. reflexivity.
  - intros -> [[-> HD15]|HM5].
    + cbn [Z.add Z.ltb Z.eqb Z.compare Pos.add Pos.succ Pos.compare
             Pos.compare_cont orb andb].
      destruct (Z.ltb_spec D 15); [lia|reflexivity].
    + destruct (Z.ltb_spec (M + 1) 6); [lia|].
      destruct (Z.eqb_spec (M + 1) 6); [lia|reflexivity].
  - intros -> [HM5|[-> HD15]].
    + destruct (Z.ltb_spec (M + 1) 6); [reflexivity|lia].
    + cbn [Z.add Z.ltb Z.eqb Z.compare Pos.add Pos.succ Pos.compare
             Pos.compare_cont orb andb].
      destruct (Z.ltb_spec D 15); [reflexivity|lia].
Qed.

Lemma calculateAge_whole_years_witness :
  Z.abs june_14_2024 <= 8640000000000000
  /\ 0 <= utc 645408000000 < JSDate.msPerDay
  /\ JSDate.date_text (JSDate.LocalTime utc june_14_2024) = "2024-06-14"
  /\ Patients.calculateAge utc june_14_2024 "1990-06-15" = Some 33.
Proof.
  split; [by vm_compute|]. split; [by vm_compute|]. split; [reflexivity|].
  apply (proj2 (calculateAge_whole_years utc june_14_2024
                  ltac:(by vm_compute)) ltac:(by vm_compute));
    reflexivity.
Defined.


(* ===================================================================== *)
(** ** The booking scenario and the local day *)

(** A local reading of 2024-12-15 at a time of day earlier than the
    offset ahead of UTC is an instant of 14 December in UTC. *)
Lemma utc_day_before_local_day (tza : Z -> Z) (t : Z) :
  JSDate.YearFromTime (JSDate.LocalTime tza t) = 2024 ->
  JSDate.MonthFromTime (JSDate.LocalTime tza t) = 11 ->
  JSDate.DateFromTime (JSDate.LocalTime tza t) = 15 ->
  JSDate.TimeWithinDay (JSDate.LocalTime tza t) < tza t <= JSDate.msPerDay ->
  JSDate.date_text t = "2024-12-14".
Proof.
  intros Hy Hm Hd Hoff.
  pose proof (MakeDay_fields (JSDate.LocalTime tza t)) as Hday.
  rewrite Hy, Hm, Hd in Hday.
  change (JSDate.MakeDay 2024 11 15) with 20072 in Hday.
  assert (Ht : JSDate.Day t = JSDate.Day 1734134400000).
  { change (JSDate.Day 1734134400000) with 20071.
    revert Hday Hoff.
    unfold JSDate.Day, JSDate.TimeWithinDay, JSDate.LocalTime, JSDate.msPerDay.
    intros Hday Hoff. Z.div_mod_to_equations. lia. }
  destruct (fields_of_day _ _ Ht) as (HY & HM & HD).
  unfold JSDate.date_text. rewrite HY, HM, HD. reflexivity.
Qed.

(** C1 (a defect of the code).  The date cell is filled by a date picker
    that works in local time, while the handler sends the date part of
    [toISOString], the UTC day.  In a browser ahead of UTC, with the cell
    holding a [Date] that reads 2024-12-15 in local time at a time of day
    earlier than the offset (local midnight, say), submitting the form of
    the scenario (patient 5, doctor 2, time "10:00", no reason) transmits
    exactly one creation call whose body has [date: "2024-12-14"], not
    "2024-12-15"; the handler navigates to /appointments when the backend
    accepts the call. *)
Theorem booking_scenario_ahead_of_utc (tza : Z -> Z) (env : Env) (w : World)
    (s : BookAppointment.State) (t : Z) :
  BookAppointment.selectedPatient s = Some 5 ->
  BookAppointment.selectedDoctor s = Some 2 ->
  BookAppointment.date s = Some (JSDate.mkDate (Some t)) ->
  JSDate.getFullYear tza (JSDate.mkDate (Some t)) = Some 2024 ->
  JSDate.getMonth tza (JSDate.mkDate (Some t)) = Some 11 ->
  JSDate.getDate tza (JSDate.mkDate (Some t)) = Some 15 ->
  JSDate.TimeWithinDay (JSDate.LocalTime tza t) < tza t <= JSDate.msPerDay ->
  BookAppointment.timeStr s = "10:00" ->
  BookAppointment.reason s = "" ->
  exists sent,
    network (snd (snd (BookAppointment.handleSubmit env (s, w))))
      = (network w ++ [sent])%list
    /\ method sent = POST
    /\ url sent = "/patients/appointments"
    /\ data sent
       = AppointmentBody
           {| patient := Some 5; doctor := Some 2; date := "2024-12-14";
              time := "10:00"; reason := None; status := false |}
    /\ (forall a, appointments_service env sent = Normal a ->
          navigations (snd (snd (BookAppointment.handleSubmit env (s, w))))
          = (navigations w ++ ["/appointments"])%list).
Proof.
  intros Hp Hd Hdate [= Hy] [= Hm] [= Hday] Hoff Htime Hreason.
  assert (Hc : Form.complete s = true).
  { unfold Form.complete. by rewrite Hp, Hd, Hdate, Htime. }
  pose proof (utc_day_before_local_day tza t Hy Hm Hday Hoff) as Htext.
  exists (Form.creation_request env w s t).
  destruct (transmitted_shape w
              (make_request env POST endpoints.patients_appointments
                 (AppointmentBody (Form.payload s t))))
    as (Hmeth & Hurl & Hdata & _).
  split; [by apply handleSubmit_transmits|].
  split; [exact Hmeth|]. split; [exact Hurl|]. split.
  - unfold Form.creation_request. rewrite Hdata. cbn [data make_request].
    unfold Form.payload. by rewrite Hp, Hd, Htext, Htime, Hreason.
  - intros a Hok. by rewrite (handleSubmit_booked env w s t a Hc Hdate Hok).
Qed.

Lemma booking_scenario_ahead_of_utc_witness :
  JSDate.getFullYear one_hour_ahead
    (JSDate.mkDate (Some local_midnight_december_15)) = Some 2024
  /\ JSDate.getMonth one_hour_ahead
       (JSDate.mkDate (Some local_midnight_december_15)) = Some 11
  /\ JSDate.getDate one_hour_ahead
       (JSDate.mkDate (Some local_midnight_december_15)) = Some 15
  /\ exists sent,
       network (snd (snd (BookAppointment.handleSubmit obliging_env
                  (booking_form
                     (JSDate.mkDate (Some local_midnight_december_15))
                     "10:00",
                   fresh_world))))
         = ([] ++ [sent])%list
       /\ method sent = POST
       /\ url sent = "/patients/appointments"
       /\ data sent
          = AppointmentBody
              {| patient := Some 5; doctor := Some 2; date := "2024-12-14";
                 time := "10:00"; reason := None; status := false |}
       /\ (forall a, appointments_service obliging_env sent = Normal a ->
             navigations (snd (snd (BookAppointment.handleSubmit obliging_env
                  (booking_form
                     (JSDate.mkDate (Some local_midnight_december_15))
                     "10:00",
                   fresh_world))))
             = ([] ++ ["/appointments"])%list).
Proof.
  split; [reflexivity|]. split; [reflexivity|]. split; [reflexivity|].
  apply (booking_scenario_ahead_of_utc one_hour_ahead obliging_env fresh_world
           (booking_form (JSDate.mkDate (Some local_midnight_december_15))
              "10:00")
           local_midnight_december_15); solve [reflexivity | by vm_compute].
Defined.

(** * Further properties of the code *)
(* ===================================================================== *)

(** ** The paths of the client *)

Lemma uint_text_avoids_slash (d : Decimal.uint) :
  Text.avoids "/" (NilEmpty.string_of_uint d) = true.
Proof. induction d; cbn [NilEmpty.string_of_uint Text.avoids]; auto. Qed.

Lemma number_text_avoids_slash (n : Z) :
  Text.avoids "/" (ApiPaths.number_text n) = true.
Proof.
  unfold ApiPaths.number_text.
  destruct (Z.to_int n); cbn [NilEmpty.string_of_int Text.avoids];
    by rewrite uint_text_avoids_slash.
Qed.

Lemma number_text_nonempty (n : Z) : ApiPaths.number_text n <> "".
Proof.
  unfold ApiPaths.number_text. destruct n as [|p|p]; cbn.
  - discriminate.
  - pose proof (Unsigned.to_uint_nonnil p) as Hp.
    by destruct (Pos.to_uint p).
  - discriminate.
Qed.

(** A number printed in a path reads back as the same number. *)
Lemma read_number_text (n : Z) :
  Routes.read_number (ApiPaths.number_text n) = Some n.
Proof.
  pose proof (number_text_nonempty n) as Hne.
  unfold Routes.read_number. destruct (ApiPaths.number_text n) eqn:E; [done|].
  rewrite <- E. unfold ApiPaths.number_text.
  rewrite NilEmpty.isi. cbn [option_map]. by rewrite DecimalZ.of_to.
Qed.

Lemma split_on_piece (sep : ascii) (a : string) :
  Text.avoids sep a = true -> Routes.split_on sep a = [a].
Proof.
  induction a as [|c a IH]; cbn [Routes.split_on Text.avoids]; [done|].
  intros [Hc Ha]%andb_true_iff. apply negb_true_iff in Hc.
  by rewrite Hc, IH.
Qed.

Lemma split_on_app (sep : ascii) (a rest : string) :
  Text.avoids sep a = true ->
  Routes.split_on sep (a +:+ String sep rest) = a :: Routes.split_on sep rest.
Proof.
  induction a as [|c a IH]; simpl.
  - intros _. by rewrite Ascii.eqb_refl.
  - intros [Hc Ha]%andb_true_iff. apply negb_true_iff in Hc.
    by rewrite Hc, IH.
Qed.

(** Splitting undoes joining, when no piece holds the separator. *)
Lemma split_on_join (sep : ascii) (pieces : list string) :
  pieces <> [] ->
  forallb (Text.avoids sep) pieces = true ->
  Routes.split_on sep (Routes.join sep pieces) = pieces.
Proof.
  induction pieces as [|a [|b rest] IH]; [done| |].
  - intros _ [Ha _]%andb_true_iff. by apply split_on_piece.
  - intros _ [Ha Hrest]%andb_true_iff.
    change (Routes.join sep (a :: b :: rest))
      with (a +:+ String sep (Routes.join sep (b :: rest))).
    rewrite split_on_app by done. by rewrite IH.
Qed.

Arguments Routes.read_number : simpl never.

Ltac path_pieces pieces :=
  match goal with
  | |- Routes.route ?p = _ =>
      unfold Routes.route;
      change p with (Routes.join "/" pieces);
      rewrite split_on_join;
      [| discriminate
       | cbn [forallb Text.avoids Ascii.eqb Bool.eqb negb andb];
         rewrite ?number_text_avoids_slash; reflexivity]
  end.

Ltac name_number id :=
  let text := fresh "text" in
  pose proof (read_number_text id);
  remember (ApiPaths.number_text id) as text.

Ltac read_numbers :=
  cbn;
  repeat match goal with
         | H : Routes.read_number _ = Some _ |- _ => rewrite H; clear H
         end;
  try change (Routes.read_number "check-ins") with (@None Z);
  try change (Routes.read_number "appointments") with (@None Z);
  reflexivity.

(** Every path of the client, with numeric ids, reads back as the route
    it was built for. *)
Lemma route_path (r : Routes.Route) : Routes.route (Routes.path r) = Some r.
Proof.
  destruct r as [ | | | |id|id|id|p r|id| |id| |id| |id];
    try reflexivity;
    unfold Routes.path, ApiPaths.patients.detail, ApiPaths.patients.vitals,
      ApiPaths.patients.medicalRecords,
      ApiPaths.patients.medicalRecordDetail,
      ApiPaths.patients.emergencyContact, ApiPaths.patients.checkInDetail,
      ApiPaths.patients.appointmentDetail, ApiPaths.staff.doctorDetail,
      ApiPaths.id_text.
  - path_pieces [""; "patients"; ApiPaths.number_text id].
    name_number id. read_numbers.
  - path_pieces [""; "patients"; ApiPaths.number_text id; "vitals"].
    name_number id. read_numbers.
  - path_pieces [""; "patients"; ApiPaths.number_text id; "records"].
    name_number id. read_numbers.
  - path_pieces [""; "patients"; ApiPaths.number_text p; "records";
                 ApiPaths.number_text r].
    name_number p. name_number r. read_numbers.
  - path_pieces [""; "patients"; ApiPaths.number_text id;
                 "emergency_contact"].
    name_number id. read_numbers.
  - path_pieces [""; "patients"; "check-ins"; ApiPaths.number_text id].
    name_number id. read_numbers.
  - path_pieces [""; "patients"; "appointments"; ApiPaths.number_text id].
    name_number id. read_numbers.
  - path_pieces [""; "staff"; "doctors"; ApiPaths.number_text id].
    name_number id. read_numbers.
Qed.

(** X1. Two routes with the same path are the same route: with numeric
    ids, no path of the client stands for two resources, and the ids can
    be read off the path. *)
Theorem paths_are_unambiguous (a b : Routes.Route) :
  Routes.path a = Routes.path b -> a = b.
Proof.
  intros H. apply (f_equal Routes.route) in H.
  rewrite !route_path in H. by injection H.
Qed.

Lemma paths_are_unambiguous_witness :
  Routes.path (Routes.Vitals 5) = "/patients/5/vitals"
  /\ Routes.Vitals 5 = Routes.Vitals 5.
Proof.
  split; [reflexivity|].
  apply (paths_are_unambiguous (Routes.Vitals 5) (Routes.Vitals 5)).
  reflexivity.
Defined.

(** With a text as id the builders can reach another resource: the
    collections that live under /patients, or a nested resource. *)
Lemma text_id_reaches_other_resource :
  ApiPaths.patients.detail (ApiPaths.IdText "appointments")
    = ApiPaths.patients.appointments
  /\ ApiPaths.patients.detail (ApiPaths.IdText "check-ins")
     = ApiPaths.patients.checkIns
  /\ ApiPaths.patients.detail (ApiPaths.IdText "5/vitals")
     = ApiPaths.patients.vitals (ApiPaths.IdNumber 5).
Proof. repeat split; reflexivity. Qed.

(** ** The login handler, step by step *)

Lemma onButtonClick_blank (env : Env) (w : World) (s : Login.State) :
  Form.blank (Login.email s) || Form.blank (Login.password s) = true ->
  Login.onButtonClick env (s, w) = (Normal tt, (Shapes.checked_login s, w)).
Proof.
  intros H. unfold Login.onButtonClick, Shapes.checked_login. unfold_eff. cbn.
  rewrite !trim_eqb_blank.
  destruct (Form.blank (Login.email s)), (Form.blank (Login.password s));
    try discriminate H; reflexivity.
Qed.

Lemma onButtonClick_accepted (env : Env) (w : World) (s : Login.State)
    (a : AuthResponse) :
  Form.blank (Login.email s) = false ->
  Form.blank (Login.password s) = false ->
  token_service env (Shapes.login_request env w s) = Normal a ->
  Login.onButtonClick env (s, w)
  = (Normal tt,
     (Login.mkState (Login.email s) (Login.password s) "" "" (JStr "") false,
      log_navigation "/dashboard"
        (set_localStorage (insert "refreshToken" (refresh a))
           (set_localStorage (insert "authToken" (access a))
              (log_request (Shapes.login_request env w s) w))))).
Proof.
  intros He Hp Hok. run_login He Hp.
  unfold try_catch_finally, authAPI.login. unfold_eff. cbn.
  rewrite apiClient_run. cbn.
  unfold Shapes.login_request in Hok. by rewrite Hok.
Qed.

Lemma onButtonClick_refused (env : Env) (w : World) (s : Login.State)
    (e : jsval) :
  Form.blank (Login.email s) = false ->
  Form.blank (Login.password s) = false ->
  token_service env (Shapes.login_request env w s) = Throw e ->
  exists r banner,
    Login.onButtonClick env (s, w)
    = (r,
       (Login.mkState (Login.email s) (Login.password s) "" "" banner false,
        log_console "Login failed:" e
          (log_request (Shapes.login_request env w s) w))).
Proof.
  intros He Hp Hrej. run_login He Hp.
  unfold try_catch_finally, authAPI.login. unfold_eff. cbn.
  rewrite apiClient_run. cbn.
  unfold Shapes.login_request in Hrej. rewrite Hrej. cbn.
  unfold response_data_field. unfold_eff.
  destruct (member e "response") as [resp|e']; cbn; [|by eexists _, _].
  destruct (truthy _); cbn; by eexists _, _.
Qed.

(** X2. A login form whose email or password holds nothing but white
    space (the characters that [trim] strips: TAB, LF, VT, FF, CR, SPACE
    and the no-break space; the empty text included) is not sent: the
    handler sets "Email is required" and "Password is required" on
    exactly the blank fields, clears the banner, and leaves everything
    else as it was: no request, no change to the stored tokens, no
    navigation, the busy flag untouched. *)
Theorem login_validation (env : Env) (w : World) (s : Login.State) :
  Text.white_only (Login.email s) || Text.white_only (Login.password s)
    = true ->
  Login.onButtonClick env (s, w)
  = (Normal tt,
     (Login.mkState (Login.email s) (Login.password s)
        (if Text.white_only (Login.email s) then "Email is required" else "")
        (if Text.white_only (Login.password s)
         then "Password is required" else "")
        (JStr "") (Login.isLoading s),
      w)).
Proof.
  intros H. change Text.white_only with Form.blank in *.
  by rewrite onButtonClick_blank.
Qed.

Lemma login_validation_witness :
  Text.white_only (Login.email MoreSamples.blank_login_form)
  || Text.white_only (Login.password MoreSamples.blank_login_form) = true
  /\ Login.onButtonClick obliging_env (MoreSamples.blank_login_form,
                                        MoreSamples.busy_world)
     = (Normal tt,
        (Login.mkState "   " "s3cret" "Email is required" "" (JStr "") false,
         MoreSamples.busy_world)).
Proof.
  split; [reflexivity|].
  apply (login_validation obliging_env MoreSamples.busy_world
           MoreSamples.blank_login_form).
  reflexivity.
Defined.

(** A password of no-break spaces is blank to the handler, next to an
    email of spaces: both fields are flagged. *)
Lemma no_break_space_password_is_flagged :
  let s := Login.mkState "  " (String "160" (String "160" "")) "" ""
             (JStr "") false in
  Login.onButtonClick obliging_env (s, fresh_world)
  = (Normal tt,
     (Login.mkState "  " (String "160" (String "160" ""))
        "Email is required" "Password is required" (JStr "") false,
      fresh_world)).
Proof. cbv zeta. by rewrite onButtonClick_blank. Qed.

(** X3. A login form with both fields filled in is sent as typed: one
    POST to /api/token/ whose body holds the email and the password
    without trimming.  When the backend accepts it, the two tokens of the
    answer are stored under 'authToken' and 'refreshToken', the handler
    navigates to /dashboard, and the form is left with no message and not
    busy. *)
Theorem login_accepted (env : Env) (w : World) (s : Login.State)
    (a : AuthResponse) :
  Shapes.all_space (Login.email s) = false ->
  Shapes.all_space (Login.password s) = false ->
  token_service env (Shapes.login_request env w s) = Normal a ->
  let final := snd (Login.onButtonClick env (s, w)) in
  method (Shapes.login_request env w s) = POST
  /\ url (Shapes.login_request env w s) = "/api/token/"
  /\ data (Shapes.login_request env w s)
     = Credentials (Login.email s) (Login.password s)
  /\ network (snd final) = (network w ++ [Shapes.login_request env w s])%list
  /\ localStorage (snd final)
     = <["refreshToken" := refresh a]>
         (<["authToken" := access a]> (localStorage w))
  /\ navigations (snd final) = (navigations w ++ ["/dashboard"])%list
  /\ fst final
     = Login.mkState (Login.email s) (Login.password s) "" "" (JStr "") false.
Proof.
  intros He Hp Hok final. rewrite <- blank_iff_all_space in He, Hp.
  subst final. rewrite (onButtonClick_accepted env w s a He Hp Hok).
  destruct (transmitted_shape w
              (make_request env POST endpoints.auth_token
                 (Credentials (Login.email s) (Login.password s))))
    as (Hmeth & Hurl & Hdata & _).
  repeat split; assumption.
Qed.

Lemma login_accepted_witness :
  Shapes.all_space (Login.email MoreSamples.padded_login_form) = false
  /\ Shapes.all_space (Login.password MoreSamples.padded_login_form) = false
  /\ data (Shapes.login_request obliging_env fresh_world
             MoreSamples.padded_login_form)
     = Credentials " nurse@hms.example " "s3cret"
  /\ navigations
       (snd (snd (Login.onButtonClick obliging_env
                    (MoreSamples.padded_login_form, fresh_world))))
     = ([] ++ ["/dashboard"])%list.
Proof.
  split; [reflexivity|]. split; [reflexivity|].
  pose proof (login_accepted obliging_env fresh_world
                MoreSamples.padded_login_form
                (mkAuthResponse "header.payload.signature" "r3fr3sh")
                eq_refl eq_refl eq_refl) as H.
  cbv zeta in H. destruct H as (_ & _ & Hd & _ & _ & Hn & _).
  split; [exact Hd | exact Hn].
Defined.

(** X4. A login that the backend does not accept never changes the
    stored tokens and never navigates, whatever value the call is
    rejected with (a response outside 2xx, a network failure, even
    [null]); it transmits its one request, and the form is not left
    busy. *)
Theorem login_refused_keeps_tokens (env : Env) (w : World) (s : Login.State)
    (e : jsval) :
  Shapes.all_space (Login.email s) = false ->
  Shapes.all_space (Login.password s) = false ->
  token_service env (Shapes.login_request env w s) = Throw e ->
  let final := snd (Login.onButtonClick env (s, w)) in
  localStorage (snd final) = localStorage w
  /\ navigations (snd final) = navigations w
  /\ network (snd final) = (network w ++ [Shapes.login_request env w s])%list
  /\ Login.isLoading (fst final) = false.
Proof.
  intros He Hp Hrej final. rewrite <- blank_iff_all_space in He, Hp.
  subst final.
  destruct (onButtonClick_refused env w s e He Hp Hrej) as (r & banner & ->).
  repeat split.
Qed.

Lemma login_refused_keeps_tokens_witness :
  let env := rejecting_env 401 detail_body in
  Shapes.all_space (Login.email login_form) = false
  /\ Shapes.all_space (Login.password login_form) = false
  /\ localStorage
       (snd (snd (Login.onButtonClick env (login_form, MoreSamples.busy_world))))
     = localStorage MoreSamples.busy_world.
Proof.
  cbv zeta. split; [reflexivity|]. split; [reflexivity|].
  apply (login_refused_keeps_tokens (rejecting_env 401 detail_body)
           MoreSamples.busy_world login_form (AxiosError 401 detail_body));
    reflexivity.
Defined.

(** X5. After an accepted login that returned a non-empty access token,
    [isAuthenticated] answers [true] and every further call through the
    client carries [Authorization: Bearer <that token>], replacing any
    token stored before. *)
Theorem login_then_authenticated (env : Env) (w : World) (s : Login.State)
    (a : AuthResponse) :
  Shapes.all_space (Login.email s) = false ->
  Shapes.all_space (Login.password s) = false ->
  token_service env (Shapes.login_request env w s) = Normal a ->
  access a <> "" ->
  let w' := snd (snd (Login.onButtonClick env (s, w))) in
  fst (tokenUtils.isAuthenticated w') = Normal true
  /\ fst (tokenUtils.getAccessToken w') = Normal (Some (access a))
  /\ fst (tokenUtils.getRefreshToken w') = Normal (Some (refresh a))
  /\ forall T (service : Request -> completion T) (config : Request),
       exists sent,
         apiClient service config w' = (service sent, log_request sent w')
         /\ headers sent !! "Authorization"
            = Some ("Bearer " +:+ access a).
Proof.
  intros He Hp Hok Hne w'. rewrite <- blank_iff_all_space in He, Hp.
  subst w'. rewrite (onButtonClick_accepted env w s a He Hp Hok).
  cbn [snd]. apply String.eqb_neq in Hne.
  assert (Hget : localStorage
                   (log_navigation "/dashboard"
                      (set_localStorage (insert "refreshToken" (refresh a))
                         (set_localStorage (insert "authToken" (access a))
                            (log_request (Shapes.login_request env w s) w))))
                 !! "authToken" = Some (access a)).
  { cbn. by simplify_map_eq. }
  split; [|split; [|split]].
  - unfold_storage. unfold_eff. cbn [fst]. rewrite Hget. cbn. by rewrite Hne.
  - unfold_storage. unfold_eff. cbn [fst]. by rewrite Hget.
  - unfold_storage. unfold_eff. cbn. by simplify_map_eq.
  - intros T service config. eexists. rewrite apiClient_run.
    split; [reflexivity|]. unfold Form.transmitted. rewrite Hget, Hne.
    cbn. by simplify_map_eq.
Qed.

Lemma login_then_authenticated_witness :
  Shapes.all_space (Login.email login_form) = false
  /\ Shapes.all_space (Login.password login_form) = false
  /\ "header.payload.signature" <> ""
  /\ fst (tokenUtils.isAuthenticated
            (snd (snd (Login.onButtonClick obliging_env
                         (login_form, MoreSamples.busy_world)))))
     = Normal true.
Proof.
  split; [reflexivity|]. split; [reflexivity|]. split; [discriminate|].
  apply (login_then_authenticated obliging_env MoreSamples.busy_world
           login_form (mkAuthResponse "header.payload.signature" "r3fr3sh")
           eq_refl eq_refl eq_refl ltac:(discriminate)).
Defined.

(** ** The token helpers and the rest of the storage *)

Ltac by_key k :=
  apply map_eq; intros k;
  destruct (decide (k = "authToken")) as [->|?];
  [|destruct (decide (k = "refreshToken")) as [->|?]];
  by simplify_map_eq.

(** X6. The token helpers touch the two token keys only: every other key
    of the storage reads the same after [setTokens] and after
    [removeTokens].  A second [setTokens] replaces the pair of the first,
    [removeTokens] after [setTokens] leaves what [removeTokens] alone
    leaves, and a second [removeTokens] changes nothing. *)
Theorem token_helpers_touch_two_keys (access refresh : string) (w : World) :
  let w1 := snd (tokenUtils.setTokens access refresh w) in
  let w2 := snd (tokenUtils.removeTokens w) in
  (forall k : string, k <> "authToken" -> k <> "refreshToken" ->
     localStorage w1 !! k = localStorage w !! k
     /\ localStorage w2 !! k = localStorage w !! k)
  /\ (forall access' refresh',
        localStorage (snd (tokenUtils.setTokens access' refresh' w1))
        = localStorage (snd (tokenUtils.setTokens access' refresh' w)))
  /\ localStorage (snd (tokenUtils.removeTokens w1)) = localStorage w2
  /\ localStorage (snd (tokenUtils.removeTokens w2)) = localStorage w2.
Proof.
  unfold_storage. unfold_eff. cbn.
  split; [|split; [|split]].
  - intros k Ha Hr. by simplify_map_eq.
  - intros access' refresh'. by_key k.
  - by_key k.
  - by_key k.
Qed.

(** ** The example component for authentication *)

Lemma handleLogin_accepted (env : Env) (w : World) (s : AuthExample.State)
    (username password : string) (a : AuthResponse) :
  token_service env
    (Form.transmitted w
       (make_request env POST endpoints.auth_token
          (Credentials username password))) = Normal a ->
  AuthExample.handleLogin env username password (s, w)
  = (Normal tt,
     (AuthExample.mkState true (JStr ""),
      log_console "Login successful!" JUndefined
        (set_localStorage (insert "refreshToken" (refresh a))
           (set_localStorage (insert "authToken" (access a))
              (log_request
                 (Form.transmitted w
                    (make_request env POST endpoints.auth_token
                       (Credentials username password))) w))))).
Proof.
  intros Hok. unfold AuthExample.handleLogin, try_catch_finally,
    authAPI.login. unfold_eff. cbn.
  rewrite apiClient_run. cbn. by rewrite Hok.
Qed.

Lemma handleLogin_rejected (env : Env) (w : World) (s : AuthExample.State)
    (username password : string) (st : Z) (body : jsval) :
  token_service env
    (Form.transmitted w
       (make_request env POST endpoints.auth_token
          (Credentials username password))) = Throw (AxiosError st body) ->
  AuthExample.handleLogin env username password (s, w)
  = (Normal tt,
     (AuthExample.mkState (AuthExample.isLoggedIn s)
        (or_else (get_prop body "detail") (JStr "Login failed")),
      log_console "Login failed:" (AxiosError st body)
        (log_request
           (Form.transmitted w
              (make_request env POST endpoints.auth_token
                 (Credentials username password))) w))).
Proof.
  intros Hrej. unfold AuthExample.handleLogin, try_catch_finally,
    authAPI.login. unfold_eff. cbn.
  rewrite apiClient_run. cbn. rewrite Hrej. cbn.
  by rewrite response_data_field_AxiosError.
Qed.

(** X7. In the example component, an accepted login stores the two
    tokens, marks the component logged in and clears its message; a
    logout after it removes both tokens, marks it logged out, and leaves
    every other key of the storage as it was before the login, so that
    [isAuthenticated] answers [false]. *)
Theorem example_login_then_logout (env : Env) (w : World)
    (s : AuthExample.State) (username password : string)
    (a : AuthResponse) :
  token_service env
    (Form.transmitted w
       (make_request env POST endpoints.auth_token
          (Credentials username password))) = Normal a ->
  let after_login := snd (AuthExample.handleLogin env username password (s, w)) in
  let after_logout := snd (AuthExample.handleLogout after_login) in
  fst after_login = AuthExample.mkState true (JStr "")
  /\ localStorage (snd after_login) !! "authToken" = Some (access a)
  /\ localStorage (snd after_login) !! "refreshToken" = Some (refresh a)
  /\ fst after_logout = AuthExample.mkState false (JStr "")
  /\ localStorage (snd after_logout)
     = delete "refreshToken" (delete "authToken" (localStorage w))
  /\ fst (tokenUtils.isAuthenticated (snd after_logout)) = Normal false.
Proof.
  intros Hok after_login after_logout. subst after_logout after_login.
  rewrite (handleLogin_accepted env w s username password a Hok).
  unfold AuthExample.handleLogout. unfold_storage. unfold_eff. cbn.
  split; [reflexivity|]. split; [by simplify_map_eq|].
  split; [by simplify_map_eq|]. split; [reflexivity|]. split.
  - by_key k.
  - by simplify_map_eq.
Qed.

Lemma example_login_then_logout_witness :
  localStorage
    (snd (snd (AuthExample.handleLogout
                 (snd (AuthExample.handleLogin obliging_env "nurse" "s3cret"
                         (MoreSamples.logged_out, MoreSamples.busy_world))))))
  = delete "refreshToken"
      (delete "authToken" (localStorage MoreSamples.busy_world)).
Proof.
  apply (example_login_then_logout obliging_env MoreSamples.busy_world
           MoreSamples.logged_out "nurse" "s3cret"
           (mkAuthResponse "header.payload.signature" "r3fr3sh") eq_refl).
Defined.

(** X8. A refused login in the example component changes neither the
    stored tokens nor the logged-in mark (a component that was logged in
    stays so), and its message is the [detail] of the response body when
    that is truthy and "Login failed" otherwise: the body's [message] is
    not looked at. *)
Theorem example_login_refused (env : Env) (w : World)
    (s : AuthExample.State) (username password : string)
    (st : Z) (body : jsval) :
  token_service env
    (Form.transmitted w
       (make_request env POST endpoints.auth_token
          (Credentials username password))) = Throw (AxiosError st body) ->
  let final := snd (AuthExample.handleLogin env username password (s, w)) in
  AuthExample.isLoggedIn (fst final) = AuthExample.isLoggedIn s
  /\ localStorage (snd final) = localStorage w
  /\ (truthy (get_prop body "detail") = true ->
      AuthExample.loginError (fst final) = get_prop body "detail")
  /\ (truthy (get_prop body "detail") = false ->
      AuthExample.loginError (fst final) = JStr "Login failed").
Proof.
  intros Hrej final. subst final.
  rewrite (handleLogin_rejected env w s username password st body Hrej).
  cbn. unfold or_else.
  destruct (truthy (get_prop body "detail")); repeat split; congruence.
Qed.

Lemma example_login_refused_witness :
  AuthExample.loginError
    (fst (snd (AuthExample.handleLogin
                 (rejecting_env 400 (JObj {[ "message" := JStr "no" ]}))
                 "nurse" "s3cret"
                 (AuthExample.mkState true (JStr ""), MoreSamples.busy_world))))
  = JStr "Login failed".
Proof.
  apply (example_login_refused
           (rejecting_env 400 (JObj {[ "message" := JStr "no" ]}))
           MoreSamples.busy_world (AuthExample.mkState true (JStr ""))
           "nurse" "s3cret" 400 (JObj {[ "message" := JStr "no" ]}) eq_refl).
  reflexivity.
Defined.

(** ** The booking page: loading and submitting *)

(** X9. The load of the booking page always transmits its two requests,
    GET /patients/ and then GET /staff/doctors, whether or not the first
    fails.  The two lists are set together or not at all: when both calls
    are accepted they become the lists of the two answers (and the banner
    is left alone); when either call fails both lists stay as they were
    and the banner reads "Failed to load patients and doctors".  Either
    way the page is not left loading and the storage is not touched. *)
Theorem loadData_all_or_nothing (env : Env) (w : World)
    (s : BookAppointment.State) :
  let final := snd (BookAppointment.loadData env (s, w)) in
  let patients_request :=
    Form.transmitted w (make_request env GET endpoints.patients_list NoBody) in
  let doctors_request :=
    Form.transmitted w (make_request env GET endpoints.staff_doctors NoBody) in
  network (snd final)
    = (network w ++ [patients_request; doctors_request])%list
  /\ method patients_request = GET /\ url patients_request = "/patients/"
  /\ method doctors_request = GET /\ url doctors_request = "/staff/doctors"
  /\ (forall pr dr,
        patients_service env patients_request = Normal pr ->
        doctors_service env doctors_request = Normal dr ->
        BookAppointment.patients (fst final) = patients pr
        /\ BookAppointment.doctors (fst final) = doctors dr
        /\ BookAppointment.error (fst final) = BookAppointment.error s)
  /\ ((exists e, patients_service env patients_request = Throw e)
      \/ (exists e, doctors_service env doctors_request = Throw e) ->
      BookAppointment.patients (fst final) = BookAppointment.patients s
      /\ BookAppointment.doctors (fst final) = BookAppointment.doctors s
      /\ BookAppointment.error (fst final)
         = JStr "Failed to load patients and doctors")
  /\ BookAppointment.loading (fst final) = false
  /\ localStorage (snd final) = localStorage w.
Proof.
  cbv zeta.
  destruct (transmitted_shape w
              (make_request env GET endpoints.patients_list NoBody))
    as (Hm1 & Hu1 & _).
  destruct (transmitted_shape w
              (make_request env GET endpoints.staff_doctors NoBody))
    as (Hm2 & Hu2 & _).
  unfold BookAppointment.loadData, try_catch_finally, patientsAPI.getAll,
    doctorsAPI.getAll. unfold_eff. cbn.
  rewrite !apiClient_run. cbn.
  change (Form.transmitted (log_request _ w) ?c) with (Form.transmitted w c).
  destruct (patients_service env _) as [pr|e1] eqn:Hp;
    destruct (doctors_service env _) as [dr|e2] eqn:Hd; cbn;
    (split; [by rewrite <- app_assoc|]);
    do 4 (split; [assumption|]).
  - split; [by intros ? ? [= <-] [= <-]|].
    split; [|done]. intros [[e [=]]|[e [=]]].
  - split; [by intros ? ? _ [=]|]. by split.
  - split; [by intros ? ? [=]|]. by split.
  - split; [by intros ? ? [=]|]. by split.
Qed.

(** The browser after a submission, case by case. *)
Lemma handleSubmit_world (env : Env) (w : World)
    (s : BookAppointment.State) :
  let w' := snd (snd (BookAppointment.handleSubmit env (s, w))) in
  (exists t a,
     Form.complete s = true
     /\ BookAppointment.date s = Some (JSDate.mkDate (Some t))
     /\ appointments_service env (Form.creation_request env w s t) = Normal a
     /\ w' = log_navigation "/appointments"
               (log_alert "Appointment booked successfully!"
                  (log_request (Form.creation_request env w s t) w)))
  \/ (localStorage w' = localStorage w /\ alerts w' = alerts w
      /\ navigations w' = navigations w
      /\ forall t a,
           Form.complete s = true ->
           BookAppointment.date s = Some (JSDate.mkDate (Some t)) ->
           appointments_service env (Form.creation_request env w s t)
           <> Normal a).
Proof.
  cbv zeta. destruct (Form.complete s) eqn:Hc.
  - destruct (BookAppointment.date s) as [[[t|]]|] eqn:Hdate.
    + destruct (appointments_service env (Form.creation_request env w s t))
        as [a|e] eqn:Hsvc.
      * left. exists t, a.
        by rewrite (handleSubmit_booked env w s t a Hc Hdate Hsvc).
      * right. booking_complete Hc.
        rewrite Hdate, formatDate_valid, apiClient_run, reason_or_undefined.
        cbn. fold (Form.payload s t).
        change (Form.transmitted w _) with (Form.creation_request env w s t).
        rewrite Hsvc. cbn. unfold response_data_field. unfold_eff.
        assert (Hno : forall t' a,
                  true = true ->
                  Some (JSDate.mkDate (Some t)) = Some (JSDate.mkDate (Some t')) ->
                  appointments_service env (Form.creation_request env w s t')
                  <> Normal a).
        { intros t' a _ [= <-]. by rewrite Hsvc. }
        destruct (member e "response") as [resp|e']; cbn; [|done].
        by destruct (truthy _).
    + right. rewrite handleSubmit_invalid_date by done. cbn.
      repeat split. intros t a _ [=].
    + right. destruct (complete_fields s Hc) as (_ & _ & Hdt & _).
      by rewrite Hdate in Hdt.
  - right. rewrite handleSubmit_incomplete by done. cbn.
    repeat split. intros t a [=].
Qed.

(** X10. A booking submission never changes what was entered (patient,
    doctor, date, time, reason stay in the form, also after a success),
    never changes the two lists, and never touches the storage.  It shows
    the alert "Appointment booked successfully!" and navigates to
    /appointments only when the creation call was accepted; on every other
    path (a missing field, an invalid date, a rejected call) there is no
    alert and no navigation. *)
Theorem handleSubmit_effects (env : Env) (w : World)
    (s : BookAppointment.State) :
  let final := snd (BookAppointment.handleSubmit env (s, w)) in
  BookAppointment.selectedPatient (fst final)
    = BookAppointment.selectedPatient s
  /\ BookAppointment.selectedDoctor (fst final)
     = BookAppointment.selectedDoctor s
  /\ BookAppointment.date (fst final) = BookAppointment.date s
  /\ BookAppointment.timeStr (fst final) = BookAppointment.timeStr s
  /\ BookAppointment.reason (fst final) = BookAppointment.reason s
  /\ BookAppointment.patients (fst final) = BookAppointment.patients s
  /\ BookAppointment.doctors (fst final) = BookAppointment.doctors s
  /\ localStorage (snd final) = localStorage w
  /\ ((alerts (snd final)
         = (alerts w ++ ["Appointment booked successfully!"])%list
       /\ navigations (snd final)
          = (navigations w ++ ["/appointments"])%list
       /\ exists t a,
            Form.complete s = true
            /\ BookAppointment.date s = Some (JSDate.mkDate (Some t))
            /\ appointments_service env (Form.creation_request env w s t)
               = Normal a)
      \/ (alerts (snd final) = alerts w
          /\ navigations (snd final) = navigations w
          /\ forall t a,
               Form.complete s = true ->
               BookAppointment.date s = Some (JSDate.mkDate (Some t)) ->
               appointments_service env (Form.creation_request env w s t)
               <> Normal a)).
Proof.
  cbv zeta.
  assert (Hform : exists banner busy e1 e2 e3 e4,
            fst (snd (BookAppointment.handleSubmit env (s, w)))
            = BookAppointment.mkState
                (BookAppointment.selectedPatient s)
                (BookAppointment.selectedDoctor s)
                (BookAppointment.date s) (BookAppointment.timeStr s)
                (BookAppointment.reason s) (BookAppointment.patients s)
                (BookAppointment.doctors s) (BookAppointment.loading s)
                busy banner e1 e2 e3 e4).
  { destruct (Form.complete s) eqn:Hc.
    - destruct (handleSubmit_settles env w s Hc) as (r & banner & w' & ->).
      by eexists _, _, _, _, _, _.
    - rewrite handleSubmit_incomplete by done. by eexists _, _, _, _, _, _. }
  destruct Hform as (banner & busy & e1 & e2 & e3 & e4 & ->).
  do 7 (split; [reflexivity|]).
  destruct (handleSubmit_world env w s)
    as [(t & a & Hc & Hdate & Hsvc & ->)|(Hst & Hal & Hnav & Hno)].
  - split; [reflexivity|]. left. split; [reflexivity|].
    split; [reflexivity|]. by exists t, a.
  - split; [exact Hst|]. right. by repeat split.
Qed.

(** ** The patients table *)

Lemma fetchPatients_accepted (env : Env) (w : World) (s : Patients.State)
    (r : PatientsResponse) :
  patients_service env
    (Form.transmitted w (make_request env GET endpoints.patients_list NoBody))
  = Normal r ->
  Patients.fetchPatients env (s, w)
  = (Normal tt,
     (Patients.mkState (patients r) false "",
      log_request
        (Form.transmitted w
           (make_request env GET endpoints.patients_list NoBody)) w)).
Proof.
  intros Hok. unfold Patients.fetchPatients, try_catch_finally,
    patientsAPI.getAll. unfold_eff. cbn.
  rewrite apiClient_run. cbn. by rewrite Hok.
Qed.

Lemma fetchPatients_refused (env : Env) (w : World) (s : Patients.State)
    (e : jsval) :
  patients_service env
    (Form.transmitted w (make_request env GET endpoints.patients_list NoBody))
  = Throw e ->
  Patients.fetchPatients env (s, w)
  = (Normal tt,
     (Patients.mkState (Patients.patients s) false
        "Failed to fetch patients. Please try again.",
      log_console "Error fetching patients:" e
        (log_request
           (Form.transmitted w
              (make_request env GET endpoints.patients_list NoBody)) w))).
Proof.
  intros Hrej. unfold Patients.fetchPatients, try_catch_finally,
    patientsAPI.getAll. unfold_eff. cbn.
  rewrite apiClient_run. cbn. by rewrite Hrej.
Qed.

(** X11. What the patients table shows once a fetch is over, from any
    earlier state of the page (a first load or a retry after a failure):
    never the loading line; after an accepted call, one row per patient of
    the returned list in the list's order (the count field of the answer
    plays no part), or "No patients found" for an empty list, with any
    earlier error gone; after a refused call, the error line with its
    fixed message, the earlier list being kept but not shown. *)
Theorem patients_table_after_fetch (env : Env) (w : World)
    (s : Patients.State) (tza : Z -> Z) (now : Z) :
  let final := fst (snd (Patients.fetchPatients env (s, w))) in
  let request :=
    Form.transmitted w (make_request env GET endpoints.patients_list NoBody) in
  PatientsView.render tza now final <> PatientsView.Loading
  /\ (forall r,
        patients_service env request = Normal r ->
        Patients.error final = ""
        /\ PatientsView.render tza now final
           = match patients r with
             | [] => PatientsView.NoPatients
             | _ :: _ =>
                 PatientsView.Table (map (PatientsView.row tza now)
                                       (patients r))
             end)
  /\ (forall e,
        patients_service env request = Throw e ->
        Patients.patients final = Patients.patients s
        /\ PatientsView.render tza now final
           = PatientsView.Failed
               "Failed to fetch patients. Please try again.").
Proof.
  cbv zeta. split; [|split].
  - destruct (patients_service env
                (Form.transmitted w
                   (make_request env GET endpoints.patients_list NoBody)))
      as [r|e] eqn:Hsvc.
    + rewrite (fetchPatients_accepted env w s r Hsvc).
      unfold PatientsView.render. cbn. by destruct (patients r).
    + by rewrite (fetchPatients_refused env w s e Hsvc).
  - intros r Hsvc. rewrite (fetchPatients_accepted env w s r Hsvc).
    unfold PatientsView.render. cbn. by destruct (patients r).
  - intros e Hsvc. by rewrite (fetchPatients_refused env w s e Hsvc).
Qed.

Lemma substring_prefix_length (n : nat) (s : string) :
  String.length (String.substring 0 n s) = Nat.min n (String.length s).
Proof.
  revert s. induction n as [|n IH]; intros [|c s]; cbn; auto.
Qed.

Lemma substring_whole (n : nat) (s : string) :
  (String.length s <= n)%nat -> String.substring 0 n s = s.
Proof.
  revert s. induction n as [|n IH]; intros [|c s]; cbn; auto; try lia.
  intros H. f_equal. apply IH. lia.
Qed.

Lemma length_append (a b : string) :
  String.length (a +:+ b) = (String.length a + String.length b)%nat.
Proof. induction a as [|c a IH]; simpl; [done|]. by rewrite IH. Qed.

(** X12. The address cell of the table: "N/A" for an empty address;
    otherwise the first 20 characters of the address followed by "...",
    so it is never longer than 23 characters, and an address of at most
    20 characters is shown whole and still followed by "...". *)
Theorem address_cell_shape (address : string) :
  (address = "" -> PatientsView.address_cell address = "N/A")
  /\ (address <> "" ->
      PatientsView.address_cell address
      = String.substring 0 20 address +:+ "..."
      /\ String.length (PatientsView.address_cell address)
         = (Nat.min 20 (String.length address) + 3)%nat
      /\ (String.length (PatientsView.address_cell address) <= 23)%nat
      /\ ((String.length address <= 20)%nat ->
          PatientsView.address_cell address = address +:+ "...")).
Proof.
  split.
  - intros ->. reflexivity.
  - intros Hne. apply String.eqb_neq in Hne.
    unfold PatientsView.address_cell. cbn [truthy]. rewrite Hne. cbn [negb].
    split; [reflexivity|].
    rewrite length_append, substring_prefix_length.
    change (String.length "...") with 3%nat.
    split; [reflexivity|].
    split; [pose proof (Nat.le_min_l 20 (String.length address)); lia|].
    intros Hshort. by rewrite substring_whole.
Qed.

Lemma address_cell_shape_witness :
  "12 Hospital Road" <> ""
  /\ PatientsView.address_cell "12 Hospital Road" = "12 Hospital Road...".
Proof.
  split; [discriminate|].
  apply (proj2 (address_cell_shape "12 Hospital Road")
           ltac:(discriminate)).
  cbn. lia.
Defined.

(** ** Ages and days *)

(** The rule of [calculateAge] on a date-only birth text, in a browser
    whose local time is UTC or ahead of it. *)
Lemma calculateAge_law (tza : Z -> Z) (now y m d : Z) :
  Z.abs now <= 8640000000000000 ->
  0 <= y <= 9999 -> 1 <= m <= 12 -> 1 <= d <= Text.DaysInMonth y (m - 1) ->
  0 <= tza (JSDate.MakeDay y (m - 1) d * JSDate.msPerDay) < JSDate.msPerDay ->
  Patients.calculateAge tza now (Text.iso_date y m d)
  = Some (JSDate.YearFromTime (JSDate.LocalTime tza now) - y
          - (if (JSDate.MonthFromTime (JSDate.LocalTime tza now) + 1 <? m)
                || ((JSDate.MonthFromTime (JSDate.LocalTime tza now) + 1 =? m)
                    && (JSDate.DateFromTime (JSDate.LocalTime tza now) <? d))
             then 1 else 0)).
Proof.
  intros Hnow Hy Hm Hd Hoff.
  assert (Hd31 : 1 <= d <= 31).
  { pose proof (DaysInMonth_le_31 y (m - 1)). lia. }
  pose proof (parse_iso_date y m d Hy Hm Hd31) as Hparse.
  set (b := JSDate.MakeDay y (m - 1) d * JSDate.msPerDay) in *.
  destruct (parse_midnight _ _ Hparse) as [Hmid _].
  destruct (fields_of_day _ _ (Day_of_local_midnight tza b Hmid Hoff))
    as (HY & HM & HD).
  destruct (fields_of_MakeDay y (m - 1) d ltac:(lia) Hd) as (Hy' & Hm' & Hd').
  fold b in Hy', Hm', Hd'.
  rewrite (calculateAge_local_fields tza now b _ Hparse Hnow).
  rewrite HY, HM, HD, Hy', Hm', Hd'.
  set (M := JSDate.MonthFromTime (JSDate.LocalTime tza now)).
  destruct (Z.ltb_spec M (m - 1)); destruct (Z.ltb_spec (M + 1) m);
    try lia; cbn [orb]; [reflexivity|].
  destruct (Z.eqb_spec M (m - 1)); destruct (Z.eqb_spec (M + 1) m);
    try lia; reflexivity.
Qed.

(** X13. [calculateAge] does not clamp: in a browser whose local time is
    UTC or ahead of it, for a birth date given as YYYY-MM-DD, the age is
    a number that is non-negative exactly when the birth date is not
    after today's local date; a birth date in the future gives a negative
    age. *)
Theorem calculateAge_sign (tza : Z -> Z) (now y m d : Z) :
  Z.abs now <= 8640000000000000 ->
  0 <= y <= 9999 -> 1 <= m <= 12 -> 1 <= d <= Text.DaysInMonth y (m - 1) ->
  0 <= tza (JSDate.MakeDay y (m - 1) d * JSDate.msPerDay) < JSDate.msPerDay ->
  let Y := JSDate.YearFromTime (JSDate.LocalTime tza now) in
  let M := JSDate.MonthFromTime (JSDate.LocalTime tza now) in
  let D := JSDate.DateFromTime (JSDate.LocalTime tza now) in
  exists age,
    Patients.calculateAge tza now (Text.iso_date y m d) = Some age
    /\ (0 <= age
        <-> y < Y \/ (y = Y /\ (m < M + 1 \/ (m = M + 1 /\ d <= D)))).
Proof.
  intros Hnow Hy Hm Hd Hoff Y M D.
  rewrite (calculateAge_law tza now y m d Hnow Hy Hm Hd Hoff).
  fold Y M D. eexists. split; [reflexivity|].
  destruct (Z.ltb_spec (M + 1) m); cbn [orb]; [lia|].
  destruct (Z.eqb_spec (M + 1) m); cbn [andb]; [|lia].
  destruct (Z.ltb_spec D d); lia.
Qed.

Lemma calculateAge_sign_witness :
  Z.abs june_14_2024 <= 8640000000000000
  /\ 1 <= 15 <= Text.DaysInMonth 2024 (6 - 1)
  /\ 0 <= utc (JSDate.MakeDay 2024 (6 - 1) 15 * JSDate.msPerDay)
       < JSDate.msPerDay
  /\ exists age,
       Patients.calculateAge utc june_14_2024 (Text.iso_date 2024 6 15)
       = Some age
       /\ (0 <= age
           <-> 2024 < JSDate.YearFromTime (JSDate.LocalTime utc june_14_2024)
               \/ (2024 = JSDate.YearFromTime (JSDate.LocalTime utc june_14_2024)
                   /\ (6 < JSDate.MonthFromTime
                              (JSDate.LocalTime utc june_14_2024) + 1
                       \/ (6 = JSDate.MonthFromTime
                                 (JSDate.LocalTime utc june_14_2024) + 1
                           /\ 15 <= JSDate.DateFromTime
                                      (JSDate.LocalTime utc june_14_2024))))).
Proof.
  split; [by vm_compute|]. split; [by vm_compute|]. split; [by vm_compute|].
  apply (calculateAge_sign utc june_14_2024 2024 6 15);
    solve [by vm_compute | lia].
Defined.

(** X14. The date that a booking sends is the UTC day of the chosen
    instant, which is not always the local day the picker shows: in a
    browser ahead of UTC it is the day before whenever the local time of
    day is earlier than the offset (a date picked at local midnight,
    say), and in a browser behind UTC it is the day after whenever less
    than the offset is left of the local day.  Otherwise it is the local
    day. *)
Theorem sent_day_and_local_day (tza : Z -> Z) (t : Z) :
  0 <= JSDate.YearFromTime t <= 9999 ->
  - JSDate.msPerDay <= tza t <= JSDate.msPerDay ->
  let local := JSDate.LocalTime tza t in
  exists text,
    (forall S (s : S),
       BookAppointment.formatDate (Some (JSDate.mkDate (Some t))) s
       = (Normal text, s))
    /\ JSDate.parse text
       = Some ((JSDate.Day local
                + (if JSDate.TimeWithinDay local <? tza t then -1
                   else if JSDate.msPerDay + tza t <=? JSDate.TimeWithinDay local
                        then 1 else 0))
               * JSDate.msPerDay).
Proof.
  intros Hy Hoff local. exists (JSDate.date_text t). split.
  - intros S s. apply formatDate_valid.
  - rewrite parse_date_text by done. f_equal. f_equal.
    subst local. revert Hoff.
    unfold JSDate.Day, JSDate.TimeWithinDay, JSDate.LocalTime, JSDate.msPerDay.
    intros Hoff.
    destruct (Z.ltb_spec ((t + tza t) mod 86400000) (tza t));
      [|destruct (Z.leb_spec (86400000 + tza t) ((t + tza t) mod 86400000))];
      Z.div_mod_to_equations; lia.
Qed.

Lemma sent_day_and_local_day_witness :
  JSDate.TimeWithinDay
    (JSDate.LocalTime one_hour_ahead local_midnight_december_15) = 0
  /\ exists text,
       (forall S (s : S),
          BookAppointment.formatDate
            (Some (JSDate.mkDate (Some local_midnight_december_15))) s
          = (Normal text, s))
       /\ JSDate.parse text
          = Some ((JSDate.Day (JSDate.LocalTime one_hour_ahead
                                 local_midnight_december_15) + -1)
                  * JSDate.msPerDay).
Proof.
  split; [reflexivity|].
  apply (sent_day_and_local_day one_hour_ahead local_midnight_december_15);
    by vm_compute.
Defined.

(** X15. Two dates are sent as the same text exactly when they fall on
    the same UTC day (for years written with four digits): the time of
    day of the chosen instant plays no part, and different days never
    share a text. *)
Theorem date_text_names_the_day (t1 t2 : Z) :
  0 <= JSDate.YearFromTime t1 <= 9999 ->
  0 <= JSDate.YearFromTime t2 <= 9999 ->
  JSDate.date_text t1 = JSDate.date_text t2 <-> JSDate.Day t1 = JSDate.Day t2.
Proof.
  intros H1 H2. split.
  - intros Heq. pose proof (parse_date_text t1 H1) as P1.
    rewrite Heq, (parse_date_text t2 H2) in P1.
    injection P1. unfold JSDate.msPerDay. lia.
  - intros Hday. destruct (fields_of_day t1 t2 Hday) as (HY & HM & HD).
    unfold JSDate.date_text. by rewrite HY, HM, HD.
Qed.

Lemma date_text_names_the_day_witness :
  JSDate.date_text mid_december = JSDate.date_text (mid_december + 3600000)
  <-> JSDate.Day mid_december = JSDate.Day (mid_december + 3600000).
Proof.
  apply (date_text_names_the_day mid_december (mid_december + 3600000));
    by vm_compute.
Defined.

(** ** What every request carries *)

(** X16. Every call built by the client goes to the configured base URL,
    or to http://localhost:8000 when the build-time variable is unset or
    empty (so the base URL is never empty), and asks for credentials to be
    included; the interceptor keeps all of that, and the method, the path
    and the body, whatever the storage holds.  On the wire, a call with a
    body (the login, the creation of an appointment) declares it as JSON,
    and a call without a body (the two list reads) carries no Content-Type
    at all; the Authorization header is the one the interceptor set. *)
Theorem request_defaults {T} (env : Env) (w : World)
    (service : Request -> completion T) (m : Method) (path : string)
    (d : Body) :
  exists sent,
    apiClient service (make_request env m path d) w
    = (service sent, log_request sent w)
    /\ baseURL sent <> ""
    /\ (forall u, VITE_API_URL env = Some u -> u <> "" -> baseURL sent = u)
    /\ (VITE_API_URL env = None \/ VITE_API_URL env = Some "" ->
        baseURL sent = "http://localhost:8000")
    /\ withCredentials sent = true
    /\ headers (wire sent) !! "Content-Type"
       = match d with
         | NoBody => None
         | Credentials _ _ | AppointmentBody _ => Some "application/json"
         end
    /\ headers (wire sent) !! "Authorization"
       = headers sent !! "Authorization"
    /\ method (wire sent) = m /\ url (wire sent) = path
    /\ data (wire sent) = d /\ baseURL (wire sent) = baseURL sent
    /\ withCredentials (wire sent) = true.
Proof.
  rewrite apiClient_run. eexists. split; [reflexivity|].
  destruct (transmitted_shape w (make_request env m path d))
    as (Hm & Hu & Hd & Hb).
  assert (Hwire : forall r : Request,
            method (wire r) = method r /\ url (wire r) = url r
            /\ data (wire r) = data r /\ baseURL (wire r) = baseURL r
            /\ withCredentials (wire r) = withCredentials r).
  { intros [b c m' u h [| |]]; repeat split; reflexivity. }
  destruct (Hwire (Form.transmitted w (make_request env m path d)))
    as (Wm & Wu & Wd & Wb & Wc).
  rewrite Wm, Wu, Wd, Wb, Wc, Hb, Hm, Hu, Hd.
  cbn [baseURL make_request method url data].
  assert (Hcred : withCredentials
                    (Form.transmitted w (make_request env m path d)) = true
                  /\ headers (Form.transmitted w (make_request env m path d))
                       !! "Content-Type" = Some "application/json").
  { unfold Form.transmitted.
    destruct (localStorage w !! "authToken") as [token|];
      [destruct (String.eqb token "")|]; split; try reflexivity;
      cbn; by simplify_map_eq. }
  destruct Hcred as [Hc Hh].
  assert (Hct : headers (wire (Form.transmitted w (make_request env m path d)))
                  !! "Content-Type"
                = match d with
                  | NoBody => None
                  | Credentials _ _ | AppointmentBody _ =>
                      Some "application/json"
                  end
                /\ headers (wire (Form.transmitted w
                                    (make_request env m path d)))
                     !! "Authorization"
                   = headers (Form.transmitted w (make_request env m path d))
                       !! "Authorization").
  { unfold wire. rewrite Hd. cbn [data make_request].
    destruct d; cbn [headers set_headers]; split; try done;
      by simplify_map_eq. }
  destruct Hct as [Hct Hau]. unfold API_BASE_URL.
  destruct (VITE_API_URL env) as [u|] eqn:Hv.
  - destruct (String.eqb_spec u "") as [->|Hne].
    + repeat split; try done. intros u' [= <-]. done.
    + repeat split; try done.
      * by intros u' [= <-].
      * intros [[=]|[= ->]]. done.
  - repeat split; try done.
Qed.

(** ** The entries of the pickers *)

Lemma uint_text_avoids_space (d : Decimal.uint) :
  Text.avoids " " (NilEmpty.string_of_uint d) = true.
Proof. induction d; cbn [NilEmpty.string_of_uint Text.avoids]; auto. Qed.

Lemma number_text_avoids_space (n : Z) :
  Text.avoids " " (ApiPaths.number_text n) = true.
Proof.
  unfold ApiPaths.number_text.
  destruct (Z.to_int n); cbn [NilEmpty.string_of_int Text.avoids];
    by rewrite uint_text_avoids_space.
Qed.

(** The piece after the last separator. *)
Lemma last_piece (sep : ascii) (a b : string) :
  Text.avoids sep b = true ->
  exists pieces,
    Routes.split_on sep (a +:+ String sep b) = (pieces ++ [b])%list
    /\ pieces <> [].
Proof.
  intros Hb. induction a as [|c a (pieces & IH & Hne)]; simpl.
  - rewrite Ascii.eqb_refl, split_on_piece by done. by exists [""].
  - rewrite IH. destruct (Ascii.eqb c sep).
    + by exists ("" :: pieces).
    + destruct pieces as [|piece pieces]; [done|].
      by exists (String c piece :: pieces).
Qed.

Lemma append_inj_l (a b c : string) : a +:+ c = b +:+ c -> a = b.
Proof.
  revert b. induction a as [|x a IH]; intros [|y b]; [done| | |].
  - intros H. apply (f_equal String.length) in H.
    change ("" +:+ c) with c in H.
    change (String y b +:+ c) with (String y (b +:+ c)) in H.
    cbn [String.length] in H. rewrite length_append in H. lia.
  - intros H. apply (f_equal String.length) in H.
    change ("" +:+ c) with c in H.
    change (String x a +:+ c) with (String x (a +:+ c)) in H.
    cbn [String.length] in H. rewrite length_append in H. lia.
  - change (String x a +:+ c) with (String x (a +:+ c)).
    change (String y b +:+ c) with (String y (b +:+ c)).
    intros [= -> H]. f_equal. by apply IH.
Qed.

Lemma append_assoc (a b c : string) : (a +:+ b) +:+ c = a +:+ (b +:+ c).
Proof.
  induction a as [|x a IH]; [done|].
  change ((String x a +:+ b) +:+ c) with (String x ((a +:+ b) +:+ c)).
  change (String x a +:+ (b +:+ c)) with (String x (a +:+ (b +:+ c))).
  by rewrite IH.
Qed.

Lemma patient_label_last_piece (names : string) (n : Z) :
  exists pieces,
    Routes.split_on " "
      (names +:+ " (ID: " +:+ ApiPaths.number_text n +:+ ")")
    = (pieces ++ [ApiPaths.number_text n +:+ ")"])%list.
Proof.
  assert (H : names +:+ " (ID: " +:+ ApiPaths.number_text n +:+ ")"
              = (names +:+ " (ID:")
                +:+ String " " (ApiPaths.number_text n +:+ ")")).
  { by rewrite append_assoc. }
  rewrite H. clear H.
  destruct (last_piece " " (names +:+ " (ID:")
              (ApiPaths.number_text n +:+ ")")) as (pieces & H & _).
  - by rewrite avoids_app, number_text_avoids_space.
  - by exists pieces.
Qed.

(** X17. In the patient picker the value of an entry is the patient's
    id, the entries come in the order of the list, and the label ends
    with that id: two entries with the same label have the same value,
    whatever the names are (also when a name is missing and prints as
    "undefined"). *)
Theorem patient_options_identify (patients : list Patient) :
  map BookingOptions.value (BookingOptions.patientOptions patients)
  = map patient_id patients
  /\ forall o1 o2,
       In o1 (BookingOptions.patientOptions patients) ->
       In o2 (BookingOptions.patientOptions patients) ->
       BookingOptions.label o1 = BookingOptions.label o2 ->
       BookingOptions.value o1 = BookingOptions.value o2.
Proof.
  split.
  - unfold BookingOptions.patientOptions. rewrite map_map. reflexivity.
  - intros o1 o2 (p & <- & _)%in_map_iff (q & <- & _)%in_map_iff.
    cbn [BookingOptions.label BookingOptions.value]. intros Hlabel.
    apply (f_equal (Routes.split_on " ")) in Hlabel.
    rewrite <- !(append_assoc _ " " _) in Hlabel.
    destruct (patient_label_last_piece
                (BookingOptions.template_optional (first_name p) +:+ " "
                 +:+ BookingOptions.template_optional (last_name p))
                (patient_id p)) as (ps & Hp).
    destruct (patient_label_last_piece
                (BookingOptions.template_optional (first_name q) +:+ " "
                 +:+ BookingOptions.template_optional (last_name q))
                (patient_id q)) as (qs & Hq).
    rewrite !append_assoc in Hp, Hq. rewrite !append_assoc in Hlabel.
    rewrite Hp, Hq in Hlabel.
    apply app_inj_tail in Hlabel as [_ Hlast].
    apply append_inj_l in Hlast.
    apply (f_equal Routes.read_number) in Hlast.
    rewrite !read_number_text in Hlast. by injection Hlast.
Qed.

Lemma patient_options_identify_witness :
  let o := BookingOptions.mkPickerOption "Jane Doe (ID: 1)" 1 in
  In o (BookingOptions.patientOptions [jane; MoreSamples.nameless])
  /\ BookingOptions.value o = BookingOptions.value o.
Proof.
  cbv zeta. split; [by left|].
  apply (proj2 (patient_options_identify [jane; MoreSamples.nameless]));
    solve [by left | reflexivity].
Defined.

(** A patient without names is listed as "undefined undefined". *)
Lemma nameless_patient_label :
  map BookingOptions.label
    (BookingOptions.patientOptions [jane; MoreSamples.nameless])
  = ["Jane Doe (ID: 1)"; "undefined undefined (ID: 3)"].
Proof. reflexivity. Qed.

(** The doctor picker has no id in its labels: two doctors of the same
    name and specialty give two entries that read the same. *)
Lemma doctor_options_can_read_the_same :
  map BookingOptions.label
    (BookingOptions.doctorOptions
       [MoreSamples.doctor_ada 1; MoreSamples.doctor_ada 2])
  = ["Dr. Ada Osei - Cardiology"; "Dr. Ada Osei - Cardiology"]
  /\ map BookingOptions.value
       (BookingOptions.doctorOptions
          [MoreSamples.doctor_ada 1; MoreSamples.doctor_ada 2])
     = [1; 2].
Proof. split; reflexivity. Qed.
